(** * PicoWifiRobotCar: request routing and dispatch, verified against the source

    A shallow embedding of the four Python sources of the repository

    - [WifiProtocolAPI.py]   (free functions, module-level route registry),
    - [WifiCommandServer.py] (the same server wrapped in a class),
    - [RobotCarWifi.py]      (the original server with hard-coded commands),
    - [WifiCommandClient.py] (the keyboard client),

    together with the fragment of the Python runtime they rely on
    (module [Py]): [str] as a sequence of code points, [bytes], the UTF-8
    codec, [str.split], [str.startswith], [dict] with its iteration order,
    exceptions and the arity check of a call.

    Conventions of the embedding.
    - A Python function with effects is a state transformer returning an
      [outcome]: a value or a raised exception.
    - Route handlers are arbitrary callables acting on an arbitrary world
      [W]; a handler is given by what it does when called with no argument
      and with one argument.
    - One pass through the body of the [while] loop of a server is a
      function of the bytes returned by [conn.recv]; what is written to the
      connection is recorded in [sent].  Access-point bring-up, [accept],
      socket failures, [print] and [time.sleep] are outside the model.
    - [bytes.decode("utf-8")] and [str.encode("utf-8")] are the strict
      codec of RFC 3629: no overlong form, no surrogate, nothing above
      U+10FFFF.  [len] of a [str] counts code points.
    - Handlers return a [str] and keep no reference to the server.
    - The servo throttles of [RobotCarWifi.py] are floats in the source and
      rationals here; the servos are observed through the sequence of
      throttle values written to them.
    - The keyboard client is run on a sequence of key events; the URLs it
      hands to [requests.get] are recorded whether or not the request
      succeeds, and [str.lower] is left as a parameter. *)

From Stdlib Require Import Strings.String Strings.Ascii Strings.Byte DecimalString.
From Stdlib Require Import Bool Arith NArith ZArith QArith Qminmax Lia List.
Import ListNotations.

Local Open Scope list_scope.
Local Open Scope nat_scope.

(* ================================================================== *)
(** * The Python runtime fragment                                       *)
(* ================================================================== *)

Module Py.

(** ** [str] and [bytes] *)

(** A character is a code point; a [str] is a sequence of them.  *)
Definition char := N.
Definition str := list char.
Definition bytes := list byte.

(** A source literal made of ASCII characters. *)
Definition lit (s : string) : str := map N_of_ascii (list_ascii_of_string s).
Arguments lit s%_string.

Definition CR : char := 13%N.
Definition LF : char := 10%N.
Definition CRLF : str := [CR; LF].

(** [a == b] *)
Fixpoint str_eqb (a b : str) : bool :=
  match a, b with
  | [], [] => true
  | x :: a', y :: b' => N.eqb x y && str_eqb a' b'
  | _, _ => false
  end.

(** [s.startswith(prefix)] *)
Fixpoint startswith (s prefix : str) {struct prefix} : bool :=
  match prefix, s with
  | [], _ => true
  | p :: prefix', c :: s' => N.eqb c p && startswith s' prefix'
  | _ :: _, [] => false
  end.

(** [s.endswith(suffix)] *)
Definition endswith (s suffix : str) : bool :=
  startswith (rev s) (rev suffix).

(** [sub in s] *)
Fixpoint contains (sub s : str) : bool :=
  startswith s sub ||
  match s with
  | [] => false
  | _ :: s' => contains sub s'
  end.

(** [s[n:]] *)
Definition slice_from (n : nat) (s : str) : str := skipn n s.

(** [s.split(sep)] and [s.split(sep, maxsplit)] for a non-empty [sep]
    ([maxsplit = None] means no limit).  The scan goes left to right;
    after an occurrence of [sep] its remaining [length sep - 1] characters
    are skipped ([skip]), so occurrences do not overlap. *)
Definition may_split (maxsplit : option nat) : bool :=
  match maxsplit with
  | Some O => false
  | _ => true
  end.

Fixpoint split_go (sep : str) (maxsplit : option nat) (skip : nat) (s : str)
  : list str :=
  match s with
  | [] => [[]]
  | c :: s' =>
      match skip with
      | S k => split_go sep maxsplit k s'
      | O =>
          if may_split maxsplit && startswith s sep
          then [] :: split_go sep (option_map pred maxsplit) (length sep - 1) s'
          else match split_go sep maxsplit 0 s' with
               | piece :: rest => (c :: piece) :: rest
               | [] => [[c]]
               end
      end
  end.

Definition split (sep : str) (maxsplit : option nat) (s : str) : list str :=
  split_go sep maxsplit 0 s.

(** [str(n)] for an [int], as an f-string formats it. *)
Definition str_of_int (n : Z) : str := lit (NilZero.string_of_int (Z.to_int n)).

(** ** The UTF-8 codec *)

(** Code points that UTF-8 can carry: everything up to U+10FFFF except
    the surrogates U+D800..U+DFFF. *)
Definition is_scalar (c : char) : bool :=
  (c <? 0xD800)%N || ((0xDFFF <? c)%N && (c <=? 0x10FFFF)%N).

Definition byte_of (n : N) : byte :=
  match Byte.of_N n with
  | Some b => b
  | None => x00
  end.

Definition encode_char (c : char) : option bytes :=
  if (c <? 0x80)%N then Some [byte_of c]
  else if (c <? 0x800)%N then
    Some [byte_of (N.lor 0xC0 (N.shiftr c 6));
          byte_of (N.lor 0x80 (N.land c 0x3F))]
  else if (c <? 0x10000)%N then
    if is_scalar c then
      Some [byte_of (N.lor 0xE0 (N.shiftr c 12));
            byte_of (N.lor 0x80 (N.land (N.shiftr c 6) 0x3F));
            byte_of (N.lor 0x80 (N.land c 0x3F))]
    else None
  else if (c <=? 0x10FFFF)%N then
    Some [byte_of (N.lor 0xF0 (N.shiftr c 18));
          byte_of (N.lor 0x80 (N.land (N.shiftr c 12) 0x3F));
          byte_of (N.lor 0x80 (N.land (N.shiftr c 6) 0x3F));
          byte_of (N.lor 0x80 (N.land c 0x3F))]
  else None.

(** [s.encode("utf-8")]; [None] stands for [UnicodeEncodeError]. *)
Fixpoint encode (s : str) : option bytes :=
  match s with
  | [] => Some []
  | c :: s' =>
      match encode_char c, encode s' with
      | Some b, Some bs => Some (b ++ bs)
      | _, _ => None
      end
  end.

(** [b.decode("utf-8")]; [None] stands for [UnicodeDecodeError].  The
    decoder reads one byte at a time: [need] continuation bytes are still
    expected for the code point accumulated in [acc], whose shortest-form
    lower bound is [lo]. *)
Definition is_continuation (n : N) : bool := (0x80 <=? n)%N && (n <=? 0xBF)%N.

Fixpoint decode_go (need : nat) (acc lo : N) (b : bytes) : option str :=
  match b with
  | [] => match need with O => Some [] | S _ => None end
  | x :: b' =>
      let n := Byte.to_N x in
      match need with
      | O =>
          if (n <? 0x80)%N then option_map (cons n) (decode_go 0 0 0 b')
          else if (0xC2 <=? n)%N && (n <=? 0xDF)%N
               then decode_go 1 (N.land n 0x1F) 0x80 b'
          else if (0xE0 <=? n)%N && (n <=? 0xEF)%N
               then decode_go 2 (N.land n 0x0F) 0x800 b'
          else if (0xF0 <=? n)%N && (n <=? 0xF4)%N
               then decode_go 3 (N.land n 0x07) 0x10000 b'
          else None
      | S k =>
          if is_continuation n then
            let acc' := (acc * 64 + N.land n 0x3F)%N in
            match k with
            | O => if (lo <=? acc')%N && is_scalar acc'
                   then option_map (cons acc') (decode_go 0 0 0 b')
                   else None
            | S _ => decode_go k acc' lo b'
            end
          else None
      end
  end.

Definition decode (b : bytes) : option str := decode_go 0 0 0 b.

(** ** [dict]: unique keys, a fixed iteration order *)

Definition dict (V : Type) := list (str * V).

(** [d.get(k)]: [d[k]] when [k in d] *)
Fixpoint dict_get {V} (d : dict V) (k : str) : option V :=
  match d with
  | [] => None
  | (k', v) :: d' => if str_eqb k k' then Some v else dict_get d' k
  end.

(** [k in d] *)
Definition dict_mem {V} (d : dict V) (k : str) : bool :=
  match dict_get d k with
  | Some _ => true
  | None => false
  end.

(** [d[k] = v]: an existing key keeps its place, a new one goes last. *)
Fixpoint dict_set {V} (d : dict V) (k : str) (v : V) : dict V :=
  match d with
  | [] => [(k, v)]
  | (k', v') :: d' =>
      if str_eqb k k' then (k', v) :: d' else (k', v') :: dict_set d' k v
  end.

(** ** Exceptions and effects *)

Inductive exn : Type :=
| TypeError
| UnicodeError
| OSError
| OtherException (name : str)   (* any other subclass of Exception      *)
| BaseException (name : str).   (* KeyboardInterrupt, SystemExit, ...   *)

(** Does [except Exception] catch it?  ([except OSError] comes first in
    the servers and has the same body.) *)
Definition is_Exception (e : exn) : bool :=
  match e with
  | BaseException _ => false
  | _ => true
  end.

Inductive outcome (A : Type) : Type :=
| Ret (a : A)
| Raise (e : exn).
Arguments Ret {A} a.
Arguments Raise {A} e.

(** A computation over a state [S]. *)
Definition M (S A : Type) : Type := S -> S * outcome A.

Definition ret {S A} (a : A) : M S A := fun s => (s, Ret a).
Definition raise {S A} (e : exn) : M S A := fun s => (s, Raise e).
Definition bind {S A B} (m : M S A) (k : A -> M S B) : M S B :=
  fun s =>
    match m s with
    | (s', Ret a) => k a s'
    | (s', Raise e) => (s', Raise e)
    end.

(** [try: body  except <caught>: handler] *)
Definition try_except {S A} (body : M S A) (caught : exn -> bool)
    (handler : exn -> M S A) : M S A :=
  fun s =>
    match body s with
    | (s', Ret a) => (s', Ret a)
    | (s', Raise e) => if caught e then handler e s' else (s', Raise e)
    end.

(** Calling a function that declares [params] positional parameters (no
    defaults, no [*args]) with [nargs] positional arguments, the bound
    [self] included: a mismatch raises [TypeError] before the body runs. *)
Definition call {S A} (params nargs : nat) (body : M S A) : M S A :=
  if Nat.eqb params nargs then body else raise TypeError.

(** ** Sockets *)

(** The client end of an accepted connection: what was sent on it, and
    whether it has been closed. *)
Record Conn : Type := { sent : list bytes; closed : bool }.

Definition fresh_conn : Conn := {| sent := []; closed := false |}.

(** [conn.send(data)] *)
Definition conn_send (data : bytes) (c : Conn) : Conn :=
  {| sent := sent c ++ [data]; closed := closed c |}.

(** [conn.close()] *)
Definition conn_close (c : Conn) : Conn :=
  {| sent := sent c; closed := true |}.

End Py.

Notation "x <- c1 ;; c2" := (Py.bind c1 (fun x => c2))
  (at level 61, c1 at next level, right associativity).
Notation "c1 ;; c2" := (Py.bind c1 (fun _ => c2))
  (at level 61, right associativity).

(* ================================================================== *)
(** * Shared shapes: route handlers and the state of one connection     *)
(* ================================================================== *)

Module Route.
Import Py.

(** A callable stored in a registry, acting on the world [W]: what
    [func()] does and what [func(arg)] does.  A function written with one
    parameter raises [TypeError] when called with none, and conversely. *)
Record Handler (W : Type) : Type :=
  { call0 : M W str;
    call1 : str -> M W str }.
Arguments call0 {W} h.
Arguments call1 {W} h arg.

(** [def f(): ...] *)
Definition no_arg {W} (f : M W str) : Handler W :=
  {| call0 := f; call1 := fun _ => raise TypeError |}.

(** [def f(arg): ...] *)
Definition one_arg {W} (f : str -> M W str) : Handler W :=
  {| call0 := raise TypeError; call1 := f |}.

(** While a connection is served the state is the world of the handlers
    together with the connection. *)
Record Env (W : Type) : Type := { world : W; conn : Conn }.
Arguments world {W} e.
Arguments conn {W} e.
Arguments Build_Env {W} world conn.

(** Running a computation on the world while a connection is open. *)
Definition on_world {W A} (m : M W A) : M (Env W) A :=
  fun e =>
    match m (world e) with
    | (w', r) => ({| world := w'; conn := conn e |}, r)
    end.

(** Running a method of the connection. *)
Definition on_conn {W} (f : Conn -> Conn) : M (Env W) unit :=
  fun e => ({| world := world e; conn := f (conn e) |}, Ret tt).

End Route.

(* ================================================================== *)
(** * WifiProtocolAPI.py                                                *)
(* ================================================================== *)

Module WifiProtocolAPI.
Import Py Route.

Section Server.
Context {W : Type}.

(** The text built by [send_http_response] before it is encoded. *)
Definition http_response (status_code : Z) (body : str) : str :=
  let reason := if (status_code =? 200)%Z then lit "OK" else lit "ERROR" in
  lit "HTTP/1.1 " ++ str_of_int status_code ++ lit " " ++ reason ++ CRLF ++
  lit "Content-Type: text/plain" ++ CRLF ++
  lit "Connection: close" ++ CRLF ++
  lit "Content-Length: " ++ str_of_int (Z.of_nat (length body)) ++ CRLF ++
  CRLF ++
  body.

(** [send_http_response(conn, status_code, body)] *)
Definition send_http_response (status_code : Z) (body : str) : M (Env W) unit :=
  match encode (http_response status_code body) with
  | Some data => on_conn (conn_send data)
  | None => raise UnicodeError
  end.

(** [route_registry[path] = func] *)
Definition register_route (route_registry : dict (Handler W)) (path : str)
    (func : Handler W) : dict (Handler W) :=
  dict_set route_registry path func.

(** Step 1 of [handle_path]: [if "?" in path: path, _ = path.split("?", 1)].
    When ["?"] occurs in [path] the split has exactly two parts, so the
    unpacking cannot fail. *)
Definition strip_query (path : str) : str :=
  if contains (lit "?") path
  then hd [] (split (lit "?") (Some 1) path)
  else path.

(** Step 3 of [handle_path]: the [for prefix, func in registry.items()]
    loop, up to its [return]; [None] when the loop runs to its end. *)
Fixpoint first_prefix (items : dict (Handler W)) (path : str)
  : option (Handler W * str) :=
  match items with
  | [] => None
  | (prefix, func) :: rest =>
      if endswith prefix (lit "/") && startswith path prefix
      then Some (func, slice_from (length prefix) path)
      else first_prefix rest path
  end.

Definition handle_path (path : str) (registry : dict (Handler W)) : M W str :=
  let path := strip_query path in
  match dict_get registry path with
  | Some func => call0 func
  | None =>
      match first_prefix registry path with
      | Some (func, arg) => call1 func arg
      | None => ret (lit "Unknown path: " ++ path)
      end
  end.

(** The [try] block of one pass of the loop of [listen_http_wireless],
    from the value returned by [conn.recv(1024)]; every [continue] ends
    the pass. *)
Definition listen_try (registry : dict (Handler W)) (request : bytes)
  : M (Env W) unit :=
  match request with
  | [] => on_conn conn_close
  | _ :: _ =>
      match decode request with
      | None =>
          send_http_response 400 (lit "Bad request encoding") ;;
          on_conn conn_close
      | Some request_str =>
          let request_line := hd [] (split CRLF None request_str) in
          let parts := split (lit " ") None request_line in
          if length parts <? 2 then
            send_http_response 400 (lit "Malformed request") ;;
            on_conn conn_close
          else
            let method := nth 0 parts [] in
            let path := nth 1 parts [] in
            if negb (str_eqb method (lit "GET")) then
              send_http_response 405 (lit "Only GET supported") ;;
              on_conn conn_close
            else
              result_text <- on_world (handle_path path registry) ;;
              send_http_response 200 result_text ;;
              on_conn conn_close
      end
  end.

(** One pass of the loop: the [try] block under its two [except] clauses,
    which both close the connection. *)
Definition listen_pass (registry : dict (Handler W)) (request : bytes)
  : M (Env W) unit :=
  try_except (listen_try registry request) is_Exception
             (fun _ => on_conn conn_close).

(** [listen_http_wireless()], run on the requests received on the
    successive connections; [registry] is the module-level
    [route_registry] that [handle_path] has as its default argument.
    The result lists the connections as they were left. *)
Fixpoint listen_http_wireless (registry : dict (Handler W))
    (incoming : list bytes) : M W (list Conn) :=
  match incoming with
  | [] => ret []
  | request :: later =>
      fun w =>
        match listen_pass registry request (Build_Env w fresh_conn) with
        | (e, Ret _) =>
            (served <- listen_http_wireless registry later ;;
             ret (conn e :: served)) (world e)
        | (e, Raise x) => (world e, Raise x)
        end
  end.

(** [handle_path_old(path)], the hard-coded version kept in the module.
    The module defines neither [stop] nor [move_servo], and imports
    neither: looking either name up raises [NameError], before the
    arguments of the call are evaluated. *)
Definition NameError : exn := OtherException (lit "NameError").

Definition handle_path_old (path : str) : M W str :=
  let path := strip_query path in
  if str_eqb path (lit "/") || str_eqb path [] then
    ret (lit "Robot Car HTTP Control (AP mode)" ++ [LF] ++
         lit "Commands:" ++ [LF] ++
         lit "  /forward" ++ [LF] ++
         lit "  /back" ++ [LF] ++
         lit "  /left" ++ [LF] ++
         lit "  /right" ++ [LF] ++
         lit "  /stop" ++ [LF] ++
         lit "  /sound/<name>" ++ [LF])
  else if str_eqb path (lit "/stop") then
    (raise NameError : M W unit) ;; ret (lit "stop")
  else if str_eqb path (lit "/forward") then
    (raise NameError : M W unit) ;; ret (lit "forward")
  else if str_eqb path (lit "/back") then
    (raise NameError : M W unit) ;; ret (lit "back")
  else if str_eqb path (lit "/left") then
    (raise NameError : M W unit) ;; ret (lit "left")
  else if str_eqb path (lit "/right") then
    (raise NameError : M W unit) ;; ret (lit "right")
  else if startswith path (lit "/sound/") then
    let sound_name := slice_from (length (lit "/sound/")) path in
    ret (lit "sound:" ++ sound_name)
  else ret (lit "Unknown path: " ++ path).

End Server.
End WifiProtocolAPI.

(* ================================================================== *)
(** * WifiCommandServer.py                                              *)
(* ================================================================== *)

Module WifiCommandServer.
Import Py Route.

Section Server.
Context {W : Type}.

(** An instance of the class. *)
Record WifiCommandServer : Type :=
  { registry : dict (Handler W);
    keepAlive : bool }.

(** [__init__(self, registry)] *)
Definition init (registry : dict (Handler W)) : WifiCommandServer :=
  {| registry := registry; keepAlive := true |}.

(** [stop_http_server(self)] *)
Definition stop_http_server (self : WifiCommandServer) : WifiCommandServer :=
  {| registry := registry self; keepAlive := false |}.

Definition http_response (status_code : Z) (body : str) : str :=
  let reason := if (status_code =? 200)%Z then lit "OK" else lit "ERROR" in
  lit "HTTP/1.1 " ++ str_of_int status_code ++ lit " " ++ reason ++ CRLF ++
  lit "Content-Type: text/plain" ++ CRLF ++
  lit "Connection: close" ++ CRLF ++
  lit "Content-Length: " ++ str_of_int (Z.of_nat (length body)) ++ CRLF ++
  CRLF ++
  body.

(** [send_http_response(self, conn, status_code, body)] *)
Definition send_http_response (status_code : Z) (body : str) : M (Env W) unit :=
  match encode (http_response status_code body) with
  | Some data => on_conn (conn_send data)
  | None => raise UnicodeError
  end.

(** [register_route(self, path, func)] *)
Definition register_route (self : WifiCommandServer) (path : str)
    (func : Handler W) : WifiCommandServer :=
  {| registry := dict_set (registry self) path func;
     keepAlive := keepAlive self |}.

(** [get_registry(self)] *)
Definition get_registry (self : WifiCommandServer) : dict (Handler W) :=
  registry self.

Definition strip_query (path : str) : str :=
  if contains (lit "?") path
  then hd [] (split (lit "?") (Some 1) path)
  else path.

Fixpoint first_prefix (items : dict (Handler W)) (path : str)
  : option (Handler W * str) :=
  match items with
  | [] => None
  | (prefix, func) :: rest =>
      if endswith prefix (lit "/") && startswith path prefix
      then Some (func, slice_from (length prefix) path)
      else first_prefix rest path
  end.

(** The body of [handle_path(self, path)]. *)
Definition handle_path (self : WifiCommandServer) (path : str) : M W str :=
  let path := strip_query path in
  match dict_get (registry self) path with
  | Some func => call0 func
  | None =>
      match first_prefix (registry self) path with
      | Some (func, arg) => call1 func arg
      | None => ret (lit "Unknown path: " ++ path)
      end
  end.

(** Positional parameters in the [def] lines, [self] included. *)
Definition handle_path_params : nat := 2.            (* (self, path) *)
Definition listen_http_wireless_params : nat := 1.   (* (self)       *)

(** The [try] block of one pass of the loop.  The call
    [self.handle_path(path, self.registry)] passes three arguments. *)
Definition listen_try (self : WifiCommandServer) (request : bytes)
  : M (Env W) unit :=
  match request with
  | [] => on_conn conn_close
  | _ :: _ =>
      match decode request with
      | None =>
          send_http_response 400 (lit "Bad request encoding") ;;
          on_conn conn_close
      | Some request_str =>
          let request_line := hd [] (split CRLF None request_str) in
          let parts := split (lit " ") None request_line in
          if length parts <? 2 then
            send_http_response 400 (lit "Malformed request") ;;
            on_conn conn_close
          else
            let method := nth 0 parts [] in
            let path := nth 1 parts [] in
            if negb (str_eqb method (lit "GET")) then
              send_http_response 405 (lit "Only GET supported at this time") ;;
              on_conn conn_close
            else
              result_text <-
                call handle_path_params 3 (on_world (handle_path self path)) ;;
              send_http_response 200 result_text ;;
              on_conn conn_close
      end
  end.

Definition listen_pass (self : WifiCommandServer) (request : bytes)
  : M (Env W) unit :=
  try_except (listen_try self request) is_Exception
             (fun _ => on_conn conn_close).

(** The body of [listen_http_wireless(self)]: [while self.keepAlive]. *)
Fixpoint listen_http_wireless (self : WifiCommandServer)
    (incoming : list bytes) : M W (list Conn) :=
  match incoming with
  | [] => ret []
  | request :: later =>
      if keepAlive self then
        fun w =>
          match listen_pass self request (Build_Env w fresh_conn) with
          | (e, Ret _) =>
              (served <- listen_http_wireless self later ;;
               ret (conn e :: served)) (world e)
          | (e, Raise x) => (world e, Raise x)
          end
      else ret []
  end.

(** [start(self)]: the call [self.listen_http_wireless(self.registry)]
    passes two arguments. *)
Definition start (self : WifiCommandServer) (incoming : list bytes)
  : M W (list Conn) :=
  call listen_http_wireless_params 2 (listen_http_wireless self incoming).

End Server.
Arguments WifiCommandServer W : clear implicits.
End WifiCommandServer.

(* ================================================================== *)
(** * RobotCarWifi.py                                                   *)
(* ================================================================== *)

Module RobotCarWifi.
Import Py Route.

(** What the program does to its two servos: the assignments to
    [servo_left.throttle] and [servo_right.throttle], oldest first. *)
Inductive actuation : Type :=
| LeftThrottle (throttle : Q)
| RightThrottle (throttle : Q).

Definition Servos : Type := list actuation.

Definition left_adjust : Q := 0.075%Q.
Definition right_adjust : Q := 0.075%Q.

(** [move_servo(left_throttle, right_throttle)] *)
Definition move_servo (left_throttle right_throttle : Q) : M Servos unit :=
  fun servos =>
    let right_reverse : Q := (-1.0)%Q in
    let left_reverse : Q := 1.0%Q in
    let throttle := ((left_throttle + left_adjust) * left_reverse)%Q in
    let throttle := Qmax (Qmin throttle 1.0%Q) (-1.0)%Q in
    let servos := servos ++ [LeftThrottle throttle] in
    let throttle := ((right_throttle + right_adjust) * right_reverse)%Q in
    let throttle := Qmax (Qmin throttle 1.0%Q) (-1.0)%Q in
    let servos := servos ++ [RightThrottle throttle] in
    (servos, Ret tt).

(** [stop()] *)
Definition stop : M Servos unit := move_servo 0.0 0.0.

Definition http_response (status_code : Z) (body : str) : str :=
  let reason := if (status_code =? 200)%Z then lit "OK" else lit "ERROR" in
  lit "HTTP/1.1 " ++ str_of_int status_code ++ lit " " ++ reason ++ CRLF ++
  lit "Content-Type: text/plain" ++ CRLF ++
  lit "Connection: close" ++ CRLF ++
  lit "Content-Length: " ++ str_of_int (Z.of_nat (length body)) ++ CRLF ++
  CRLF ++
  body.

(** [send_http_response(conn, status_code, body)] *)
Definition send_http_response (status_code : Z) (body : str)
  : M (Env Servos) unit :=
  match encode (http_response status_code body) with
  | Some data => on_conn (conn_send data)
  | None => raise UnicodeError
  end.

Definition strip_query (path : str) : str :=
  if contains (lit "?") path
  then hd [] (split (lit "?") (Some 1) path)
  else path.

(** The text returned for the root path. *)
Definition help_text : str :=
  lit "Robot Car HTTP Control (AP mode)" ++ [LF] ++
  lit "Commands:" ++ [LF] ++
  lit "  /forward" ++ [LF] ++
  lit "  /back" ++ [LF] ++
  lit "  /left" ++ [LF] ++
  lit "  /right" ++ [LF] ++
  lit "  /stop" ++ [LF] ++
  lit "  /sound/<name>" ++ [LF].

(** [handle_path(path)] *)
Definition handle_path (path : str) : M Servos str :=
  let path := strip_query path in
  if str_eqb path (lit "/") || str_eqb path [] then ret help_text
  else if str_eqb path (lit "/stop") then
    stop ;; ret (lit "stop")
  else if str_eqb path (lit "/forward") then
    move_servo (-1.0) (-1.0) ;; ret (lit "forward")
  else if str_eqb path (lit "/back") then
    move_servo 1.0 1.0 ;; ret (lit "back")
  else if str_eqb path (lit "/left") then
    move_servo (-0.5) 0.5 ;; ret (lit "left")
  else if str_eqb path (lit "/right") then
    move_servo 0.5 (-0.5) ;; ret (lit "right")
  else if startswith path (lit "/sound/") then
    let sound_name := slice_from (length (lit "/sound/")) path in
    ret (lit "sound:" ++ sound_name)
  else ret (lit "Unknown path: " ++ path).

(** The [try] block of one pass of the main loop. *)
Definition main_try (request : bytes) : M (Env Servos) unit :=
  match request with
  | [] => on_conn conn_close
  | _ :: _ =>
      match decode request with
      | None =>
          send_http_response 400 (lit "Bad request encoding") ;;
          on_conn conn_close
      | Some request_str =>
          let request_line := hd [] (split CRLF None request_str) in
          let parts := split (lit " ") None request_line in
          if length parts <? 2 then
            send_http_response 400 (lit "Malformed request") ;;
            on_conn conn_close
          else
            let method := nth 0 parts [] in
            let path := nth 1 parts [] in
            if negb (str_eqb method (lit "GET")) then
              send_http_response 405 (lit "Only GET supported") ;;
              on_conn conn_close
            else
              result_text <- on_world (handle_path path) ;;
              send_http_response 200 result_text ;;
              on_conn conn_close
      end
  end.

Definition main_pass (request : bytes) : M (Env Servos) unit :=
  try_except (main_try request) is_Exception
             (fun _ => on_conn conn_close).

(** The [while True] loop, run on the requests received on the successive
    connections. *)
Fixpoint main_loop (incoming : list bytes) : M Servos (list Conn) :=
  match incoming with
  | [] => ret []
  | request :: later =>
      fun servos =>
        match main_pass request (Build_Env servos fresh_conn) with
        | (e, Ret _) =>
            (served <- main_loop later ;; ret (conn e :: served)) (world e)
        | (e, Raise x) => (world e, Raise x)
        end
  end.

End RobotCarWifi.

(* ================================================================== *)
(** * WifiCommandClient.py                                              *)
(* ================================================================== *)

Module WifiCommandClient.
Import Py.

(** [active_keys] is a [set] of one-character strings; [compute_command]
    only asks whether a key is in it. *)
Definition key_set : Type := list str.

(** [k in active_keys] *)
Definition held (k : str) (active_keys : key_set) : bool :=
  existsb (str_eqb k) active_keys.

(** [compute_command()] *)
Definition compute_command (active_keys : key_set) : str :=
  let w := held (lit "w") active_keys in
  let a := held (lit "a") active_keys in
  let s := held (lit "s") active_keys in
  let d := held (lit "d") active_keys in
  if w && negb s && negb a && negb d then lit "forward"
  else if s && negb w && negb a && negb d then lit "back"
  else if a && negb d && negb w && negb s then lit "left"
  else if d && negb a && negb w && negb s then lit "right"
  else lit "stop".

Definition ROBOT_BASE_URL : str := lit "http://192.168.4.1".

(** The globals [active_keys] and [current_cmd], and the URLs handed to
    [requests.get], the latest first.  A request is recorded whether or
    not it succeeds: [send_command] catches and prints its failure. *)
Record Client : Type :=
  { active_keys : key_set;
    current_cmd : option str;
    requested : list str }.

(** The module as loaded: [active_keys = set()], [current_cmd = None]. *)
Definition loaded : Client :=
  {| active_keys := []; current_cmd := None; requested := [] |}.

(** [cmd == current_cmd], where [current_cmd] may be [None] *)
Definition is_current (cmd : str) (current : option str) : bool :=
  match current with
  | Some c => str_eqb cmd c
  | None => false
  end.

(** [send_command(cmd)] *)
Definition send_command (cmd : str) (st : Client) : Client :=
  if is_current cmd (current_cmd st) then st
  else {| active_keys := active_keys st;
          current_cmd := Some cmd;
          requested := (ROBOT_BASE_URL ++ lit "/" ++ cmd) :: requested st |}.

(** A key as [pynput] reports it: the space bar, escape, another special
    key, or a key code whose [char] is a string or [None].  Reading
    [key.char.lower()] raises [AttributeError] for the special keys and
    for a [None] character. *)
Inductive Key : Type :=
| Space
| Esc
| Special
| KeyCode (char : option str).

Definition char_of (key : Key) : option str :=
  match key with
  | KeyCode char => char
  | _ => None
  end.

Section Listener.
(** [str.lower], left to the runtime. *)
Variable lower : str -> str.

(** [k in ['w', 'a', 's', 'd']] *)
Definition is_movement (k : str) : bool :=
  existsb (str_eqb k) [lit "w"; lit "a"; lit "s"; lit "d"].

(** [on_press(key)] *)
Definition on_press (key : Key) (st : Client) : Client :=
  match key with
  | Space =>
      send_command (lit "stop")
        {| active_keys := [];
           current_cmd := current_cmd st;
           requested := requested st |}
  | _ =>
      match char_of key with
      | None => st
      | Some char =>
          let k := lower char in
          if is_movement k then
            if negb (held k (active_keys st)) then
              let st := {| active_keys := k :: active_keys st;
                           current_cmd := current_cmd st;
                           requested := requested st |} in
              let cmd := compute_command (active_keys st) in
              send_command cmd st
            else st
          else st
      end
  end.

(** [on_release(key)], with [false] for the [return False] that stops
    the listener. *)
Definition on_release (key : Key) (st : Client) : Client * bool :=
  match key with
  | Esc => (send_command (lit "stop") st, false)
  | _ =>
      match char_of key with
      | None => (st, true)
      | Some char =>
          let k := lower char in
          if is_movement k then
            let st :=
              if held k (active_keys st) then
                {| active_keys :=
                     filter (fun x => negb (str_eqb k x)) (active_keys st);
                   current_cmd := current_cmd st;
                   requested := requested st |}
              else st in
            let cmd := compute_command (active_keys st) in
            (send_command cmd st, true)
          else (st, true)
      end
  end.

Inductive event : Type :=
| Press (key : Key)
| Release (key : Key).

(** The listener, fed the key events in order until [on_release] stops
    it; the second component tells whether it is still running. *)
Fixpoint listener (events : list event) (st : Client) : Client * bool :=
  match events with
  | [] => (st, true)
  | Press key :: later => listener later (on_press key st)
  | Release key :: later =>
      match on_release key st with
      | (st', true) => listener later st'
      | (st', false) => (st', false)
      end
  end.

(** The [__main__] block: [send_command("stop")], then the listener. *)
Definition main (events : list event) : Client * bool :=
  listener events (send_command (lit "stop") loaded).

End Listener.

End WifiCommandClient.

(* ================================================================== *)
(** * A sample installation                                             *)
(* ================================================================== *)

(** Handlers that record their calls in a journal, a registry of them,
    and a few requests as they arrive on the wire. *)
Module Sample.
Import Py Route.

Definition Journal : Type := list str.

(** [def stop(): ... return "stop"] *)
Definition stop_route : Handler Journal :=
  no_arg (fun j => (j ++ [lit "stop()"], Ret (lit "stop"))).

(** [def sound(name): ... return f"sound:{name}"] *)
Definition sound_route : Handler Journal :=
  one_arg (fun name j => (j ++ [lit "sound(" ++ name ++ lit ")"],
                          Ret (lit "sound:" ++ name))).

(** [def beep(): ... return "beep!"] *)
Definition beep_route : Handler Journal :=
  no_arg (fun j => (j ++ [lit "beep()"], Ret (lit "beep!"))).

(** [def files(rest): ... return f"file:{rest}"] *)
Definition files_route : Handler Journal :=
  one_arg (fun rest j => (j ++ [lit "files(" ++ rest ++ lit ")"],
                          Ret (lit "file:" ++ rest))).

Definition routes : dict (Handler Journal) :=
  WifiProtocolAPI.register_route
    (WifiProtocolAPI.register_route [] (lit "/stop") stop_route)
    (lit "/sound/") sound_route.

(** The same, with an exact route below the prefix. *)
Definition routes_exact_below : dict (Handler Journal) :=
  WifiProtocolAPI.register_route routes (lit "/sound/beep") beep_route.

(** Two prefixes, the shorter one registered first. *)
Definition routes_nested : dict (Handler Journal) :=
  WifiProtocolAPI.register_route
    (WifiProtocolAPI.register_route [] (lit "/") files_route)
    (lit "/sound/") sound_route.

(** The bytes of an ASCII text. *)
Definition ascii_bytes (s : string) : bytes :=
  map byte_of_ascii (list_ascii_of_string s).
Arguments ascii_bytes s%_string.

Definition crlf : bytes := [x0d; x0a].

(** [GET /stop HTTP/1.1] and the like, followed by an empty line. *)
Definition request_of (line : bytes) : bytes := line ++ crlf ++ crlf.

(** The two bytes of U+00E9 in UTF-8. *)
Definition e_acute : bytes := [xc3; xa9].

(** [str.lower] on the letters A to Z, other characters kept. *)
Definition lower_ascii (s : str) : str :=
  map (fun c => if (65 <=? c)%N && (c <=? 90)%N then (c + 32)%N else c) s.

(** A key code with a character. *)
Definition letter (s : string) : WifiCommandClient.Key :=
  WifiCommandClient.KeyCode (Some (lit s)).
Arguments letter s%_string.

End Sample.

(* ================================================================== *)
(** * Vocabulary of the statements                                      *)
(* ================================================================== *)

Module Spec.
Import Py Route.

(** The local variables [request_line] and [parts] of the three loops, as
    functions of the decoded request. *)
Definition request_line (request_str : str) : str :=
  hd [] (split CRLF None request_str).

Definition parts (request_str : str) : list str :=
  split (lit " ") None (request_line request_str).

(** The connection received exactly one response, with this status code
    and this body, and was closed. *)
Definition answered (c : Conn) (status_code : Z) (body : str) : Prop :=
  exists data,
    encode (WifiProtocolAPI.http_response status_code body) = Some data /\
    c = {| sent := [data]; closed := true |}.

(** The connection was closed and nothing was sent on it. *)
Definition unanswered (c : Conn) : Prop :=
  c = {| sent := []; closed := true |}.

(** Characters below U+0080, which UTF-8 encodes in one byte. *)
Definition is_ascii (c : char) : bool := (c <? 0x80)%N.

(** Every character of [s] is one that UTF-8 can carry. *)
Definition encodable (s : str) : Prop := forallb is_scalar s = true.

(** The keys the client reacts to. *)
Definition movement_keys : list str := [lit "w"; lit "a"; lit "s"; lit "d"].

(** Of the four movement keys, [k] is held and no other is. *)
Definition only_held (k : str) (active_keys : list str) : Prop :=
  forall k', In k' movement_keys -> (In k' active_keys <-> k' = k).

(** The connection was closed after at most one response. *)
Definition settled (c : Conn) : Prop :=
  closed c = true /\ length (sent c) <= 1.

(** The connection was closed after exactly one response. *)
Definition served (c : Conn) : Prop :=
  exists data, c = {| sent := [data]; closed := true |}.

(** A throttle the servo accepts. *)
Definition in_range (a : RobotCarWifi.actuation) : Prop :=
  match a with
  | RobotCarWifi.LeftThrottle t | RobotCarWifi.RightThrottle t =>
      (-1 <= t /\ t <= 1)%Q
  end.

(** The five commands of the vocabulary. *)
Definition commands : list str :=
  [lit "forward"; lit "back"; lit "left"; lit "right"; lit "stop"].

(** The paths of the five movement commands. *)
Definition movement_paths : list str :=
  [lit "/stop"; lit "/forward"; lit "/back"; lit "/left"; lit "/right"].

(** No two neighbours of the list are equal. *)
Fixpoint adjacent_distinct (l : list str) : Prop :=
  match l with
  | a :: (b :: _) as rest => a <> b /\ adjacent_distinct rest
  | _ => True
  end.

(** The status line and headers of a response announcing [n] bytes. *)
Definition response_head (status_code : Z) (n : nat) : str :=
  lit "HTTP/1.1 " ++ str_of_int status_code ++ lit " " ++
  (if (status_code =? 200)%Z then lit "OK" else lit "ERROR") ++ CRLF ++
  lit "Content-Type: text/plain" ++ CRLF ++
  lit "Connection: close" ++ CRLF ++
  lit "Content-Length: " ++ str_of_int (Z.of_nat n) ++ CRLF ++
  CRLF.

(** The URL the client requests for a command. *)
Definition url_of (cmd : str) : str :=
  WifiCommandClient.ROBOT_BASE_URL ++ lit "/" ++ cmd.

(** The held keys are movement keys, each held once. *)
Definition keys_ok (st : WifiCommandClient.Client) : Prop :=
  NoDup (WifiCommandClient.active_keys st) /\
  forall k, In k (WifiCommandClient.active_keys st) -> In k movement_keys.

(** The command sent last is the one the held keys ask for. *)
Definition tracking (st : WifiCommandClient.Client) : Prop :=
  WifiCommandClient.current_cmd st
  = Some (WifiCommandClient.compute_command (WifiCommandClient.active_keys st)).

(** The requests made so far: the latest is the one for [current_cmd],
    no two in a row are the same, each is for one of the five commands,
    and the first was for [stop]. *)
Definition log_ok (st : WifiCommandClient.Client) : Prop :=
  (exists cmd earlier,
     WifiCommandClient.current_cmd st = Some cmd /\
     WifiCommandClient.requested st = url_of cmd :: earlier) /\
  adjacent_distinct (WifiCommandClient.requested st) /\
  (forall u, In u (WifiCommandClient.requested st) ->
     exists cmd, In cmd commands /\ u = url_of cmd) /\
  last (WifiCommandClient.requested st) [] = url_of (lit "stop").

End Spec.

(* ================================================================== *)
(** * Lemmas on the runtime fragment                                    *)
(* ================================================================== *)

Import Py Route Spec.

(** ** Strings *)

Lemma str_eqb_refl (a : str) : str_eqb a a = true.
Proof.
  induction a as [|x a IH]; simpl; [reflexivity|].
  now rewrite N.eqb_refl.
Qed.

Lemma str_eqb_eq (a b : str) : str_eqb a b = true <-> a = b.
Proof.
  split.
  - revert b; induction a as [|x a IH]; intros [|y b]; simpl; try discriminate.
    + reflexivity.
    + intros H. apply andb_true_iff in H as [Hx Hab].
      apply N.eqb_eq in Hx. now rewrite Hx, (IH b Hab).
  - intros ->. apply str_eqb_refl.
Qed.

Lemma str_eqb_neq (a b : str) : str_eqb a b = false <-> a <> b.
Proof.
  split.
  - intros H E. apply str_eqb_eq in E. congruence.
  - intros H. destruct (str_eqb a b) eqn:E; [|reflexivity].
    apply str_eqb_eq in E. contradiction.
Qed.

Lemma startswith_app (p s : str) : startswith (p ++ s) p = true.
Proof.
  induction p as [|c p IH]; simpl; [reflexivity|].
  now rewrite N.eqb_refl.
Qed.

Lemma slice_from_app (p s : str) : slice_from (length p) (p ++ s) = s.
Proof.
  unfold slice_from. induction p as [|c p IH]; simpl; [reflexivity|exact IH].
Qed.

(** A path that starts with a pattern is that pattern followed by the
    slice handed to the handler. *)
Lemma startswith_split (s p : str) :
  startswith s p = true -> s = p ++ slice_from (length p) s.
Proof.
  revert s; induction p as [|c p IH]; intros s H; simpl in *.
  - reflexivity.
  - destruct s as [|x s]; [discriminate|].
    apply andb_true_iff in H as [Hx Hs]. apply N.eqb_eq in Hx. subst x.
    unfold slice_from in *. simpl. now rewrite <- (IH s Hs).
Qed.

(** ** [split] *)

Lemma hd_cons_piece (c : char) (l : list str) :
  hd [] (match l with
         | piece :: rest => (c :: piece) :: rest
         | [] => [[c]]
         end) = c :: hd [] l.
Proof. destruct l; reflexivity. Qed.

Lemma split_go_not_nil (sep : str) (m : option nat) (k : nat) (s : str) :
  split_go sep m k s <> [].
Proof.
  revert m k; induction s as [|c s IH]; intros m k; simpl.
  - discriminate.
  - destruct k as [|k]; [|apply IH].
    destruct (may_split m && startswith (c :: s) sep); [discriminate|].
    destruct (split_go sep m 0 s); discriminate.
Qed.

(** Every character of every part comes from the string that was split. *)
Lemma split_go_chars (sep : str) (s : str) :
  forall (m : option nat) (k : nat) (piece : str),
    In piece (split_go sep m k s) -> incl piece s.
Proof.
  induction s as [|c s IH]; intros m k piece H; simpl in H.
  - destruct H as [<-|[]]. apply incl_refl.
  - destruct k as [|k].
    + destruct (may_split m && startswith (c :: s) sep).
      * destruct H as [<-|H]; [intros x []|].
        apply incl_tl. eapply IH; eassumption.
      * destruct (split_go sep m 0 s) as [|p rest] eqn:E.
        -- destruct H as [<-|[]]. intros x [->|[]]. now left.
        -- destruct H as [<-|H].
           ++ apply incl_cons; [now left|].
              apply incl_tl. apply (IH m 0). rewrite E. now left.
           ++ apply incl_tl. apply (IH m 0). rewrite E. now right.
    + apply incl_tl. eapply IH; eassumption.
Qed.

Lemma split_chars (sep : str) (m : option nat) (s piece : str) :
  In piece (split sep m s) -> incl piece s.
Proof. apply split_go_chars. Qed.

Lemma hd_split_chars (sep : str) (m : option nat) (s : str) :
  incl (hd [] (split sep m s)) s.
Proof.
  destruct (split sep m s) as [|p rest] eqn:E; simpl.
  - intros x [].
  - apply (split_chars sep m). rewrite E. now left.
Qed.

Lemma nth_split_chars (sep : str) (m : option nat) (s : str) (i : nat) :
  incl (nth i (split sep m s) []) s.
Proof.
  destruct (Nat.lt_ge_cases i (length (split sep m s))) as [Hi|Hi].
  - apply (split_chars sep m). now apply nth_In.
  - rewrite nth_overflow by exact Hi. intros x [].
Qed.

(** ** Query stripping *)

Lemma contains_qmark_false (s : str) :
  contains [63%N] s = false ->
  hd [] (split_go [63%N] (Some 1) 0 s) = s.
Proof.
  induction s as [|c s IH]; intros H.
  - reflexivity.
  - cbn [contains] in H. apply orb_false_iff in H as [Hc Hs].
    cbn [split_go may_split andb]. rewrite Hc.
    rewrite hd_cons_piece. now rewrite (IH Hs).
Qed.

(** Whether or not a question mark occurs, the normalised path is the
    first part of the split. *)
Lemma strip_query_hd (path : str) :
  WifiProtocolAPI.strip_query path = hd [] (split_go [63%N] (Some 1) 0 path).
Proof.
  unfold WifiProtocolAPI.strip_query.
  change (lit "?") with [63%N]. unfold split.
  destruct (contains [63%N] path) eqn:E; [reflexivity|].
  symmetry. now apply contains_qmark_false.
Qed.

Lemma hd_split_query_app (path query : str) :
  hd [] (split_go [63%N] (Some 1) 0 (path ++ 63%N :: query)) =
  hd [] (split_go [63%N] (Some 1) 0 path).
Proof.
  induction path as [|c path IH].
  - reflexivity.
  - cbn [app split_go may_split andb].
    assert (Hs : forall t, startswith (c :: t) [63%N] = N.eqb c 63).
    { intros t. cbn. apply andb_true_r. }
    rewrite !Hs. destruct (N.eqb c 63); [reflexivity|].
    rewrite !hd_cons_piece. now rewrite IH.
Qed.

Lemma strip_query_app (path query : str) :
  WifiProtocolAPI.strip_query (path ++ lit "?" ++ query) =
  WifiProtocolAPI.strip_query path.
Proof.
  rewrite !strip_query_hd. change (lit "?" ++ query) with (63%N :: query).
  apply hd_split_query_app.
Qed.

Lemma strip_query_id (path : str) :
  contains (lit "?") path = false -> WifiProtocolAPI.strip_query path = path.
Proof. unfold WifiProtocolAPI.strip_query. now intros ->. Qed.

Lemma strip_query_chars (path : str) :
  incl (WifiProtocolAPI.strip_query path) path.
Proof.
  unfold WifiProtocolAPI.strip_query.
  destruct (contains (lit "?") path); [apply hd_split_chars|apply incl_refl].
Qed.

(** When a question mark occurs, [path.split("?", 1)] has exactly two
    parts: the unpacking [path, _ = ...] of the source cannot fail. *)
Lemma split_once_two_parts (path : str) :
  contains (lit "?") path = true ->
  exists before after, split (lit "?") (Some 1) path = [before; after].
Proof.
  change (lit "?") with [63%N]. unfold split.
  induction path as [|c path IH]; intros H.
  - discriminate.
  - cbn [contains] in H. cbn [split_go may_split andb].
    destruct (startswith (c :: path) [63%N]) eqn:E.
    + exists [], path. cbn [option_map pred length Nat.sub].
      f_equal. clear. induction path as [|x path IH]; [reflexivity|].
      cbn [split_go may_split andb]. now rewrite IH.
    + cbn [orb] in H. destruct (IH H) as (b & a & ->).
      now exists (c :: b), a.
Qed.

(** ** The UTF-8 codec *)

Lemma encodable_app (a b : str) :
  encodable (a ++ b) <-> encodable a /\ encodable b.
Proof. unfold encodable. rewrite forallb_app. apply andb_true_iff. Qed.

Lemma encodable_incl (a b : str) : incl a b -> encodable b -> encodable a.
Proof.
  unfold encodable. intros Hab Hb. apply forallb_forall. intros c Hc.
  rewrite forallb_forall in Hb. apply Hb, Hab, Hc.
Qed.

Lemma ascii_is_scalar (c : char) : is_ascii c = true -> is_scalar c = true.
Proof.
  unfold is_ascii, is_scalar. intros H. apply N.ltb_lt in H.
  apply orb_true_iff. left. apply N.ltb_lt. lia.
Qed.

Lemma encode_char_scalar (c : char) :
  is_scalar c = true -> exists data, encode_char c = Some data.
Proof.
  intros H. unfold encode_char.
  destruct (c <? 0x80)%N; [eauto|].
  destruct (c <? 0x800)%N; [eauto|].
  destruct (c <? 0x10000)%N eqn:E3; [rewrite H; eauto|].
  destruct (c <=? 0x10FFFF)%N eqn:E4; [eauto|].
  exfalso. unfold is_scalar in H. rewrite E4, andb_false_r, orb_false_r in H.
  apply N.ltb_lt in H. apply N.ltb_ge in E3. lia.
Qed.

(** Encoding fails on no encodable string. *)
Lemma encode_total (s : str) :
  encodable s -> exists data, encode s = Some data.
Proof.
  unfold encodable. induction s as [|c s IH]; simpl; intros H.
  - now exists [].
  - apply andb_true_iff in H as [Hc Hs].
    destruct (encode_char_scalar c Hc) as [b ->].
    destruct (IH Hs) as [bs ->]. eauto.
Qed.

(** Whatever the decoder accepts is encodable: no surrogate and nothing
    above U+10FFFF comes out of it. *)
Lemma decode_go_encodable (b : bytes) :
  forall need acc lo s, decode_go need acc lo b = Some s -> encodable s.
Proof.
  unfold encodable.
  induction b as [|x b IH]; intros need acc lo s H; simpl in H.
  - destruct need; [|discriminate]. now inversion H.
  - destruct need as [|k].
    + destruct (Byte.to_N x <? 0x80)%N eqn:E1.
      * destruct (decode_go 0 0 0 b) as [t|] eqn:Et; [|discriminate].
        inversion H; subst s. simpl. rewrite (IH _ _ _ _ Et), andb_true_r.
        now apply ascii_is_scalar.
      * destruct ((0xC2 <=? Byte.to_N x)%N && (Byte.to_N x <=? 0xDF)%N);
          [now apply IH in H|].
        destruct ((0xE0 <=? Byte.to_N x)%N && (Byte.to_N x <=? 0xEF)%N);
          [now apply IH in H|].
        destruct ((0xF0 <=? Byte.to_N x)%N && (Byte.to_N x <=? 0xF4)%N);
          [now apply IH in H|discriminate].
    + destruct (is_continuation (Byte.to_N x)); [|discriminate].
      destruct k as [|k]; [|now apply IH in H].
      destruct ((lo <=? acc * 64 + N.land (Byte.to_N x) 0x3F)%N
                && is_scalar (acc * 64 + N.land (Byte.to_N x) 0x3F)%N) eqn:E;
        [|discriminate].
      apply andb_true_iff in E as [_ E].
      destruct (decode_go 0 0 0 b) as [t|] eqn:Et; [|discriminate].
      inversion H; subst s. simpl. now rewrite E, (IH _ _ _ _ Et).
Qed.

Lemma decode_encodable (b : bytes) (s : str) :
  decode b = Some s -> encodable s.
Proof. apply decode_go_encodable. Qed.

(** An empty buffer decodes to the empty string, and only it does. *)
Lemma decode_nil_inv (b : bytes) : decode b = Some [] -> b = [].
Proof.
  destruct b as [|x b]; [reflexivity|]. unfold decode. simpl.
  destruct (Byte.to_N x <? 0x80)%N.
  - destruct (decode_go 0 0 0 b); discriminate.
  - assert (Hne : forall b need acc lo, decode_go (S need) acc lo b <> Some []).
    { clear. induction b as [|y b IH]; intros need acc lo; simpl.
      - discriminate.
      - destruct (is_continuation (Byte.to_N y)); [|discriminate].
        destruct need as [|need]; [|apply IH].
        destruct (_ && _); [|discriminate].
        destruct (decode_go 0 0 0 b); discriminate. }
    intros H.
    destruct ((0xC2 <=? Byte.to_N x)%N && (Byte.to_N x <=? 0xDF)%N);
      [now apply Hne in H|].
    destruct ((0xE0 <=? Byte.to_N x)%N && (Byte.to_N x <=? 0xEF)%N);
      [now apply Hne in H|].
    destruct ((0xF0 <=? Byte.to_N x)%N && (Byte.to_N x <=? 0xF4)%N);
      [now apply Hne in H|discriminate].
Qed.

(** ** Decimal numerals *)

Lemma uint_digits_encodable (d : Decimal.uint) :
  encodable (lit (NilEmpty.string_of_uint d)).
Proof. unfold encodable. induction d; simpl; try reflexivity; exact IHd. Qed.

Lemma str_of_int_encodable (n : Z) : encodable (str_of_int n).
Proof.
  unfold str_of_int, NilZero.string_of_int, NilZero.string_of_uint.
  destruct (Z.to_int n) as [d|d]; destruct d;
    try reflexivity; try apply uint_digits_encodable;
    try (change (lit (String "-" ?s)) with (45%N :: lit s));
    simpl; try reflexivity; apply uint_digits_encodable.
Qed.

(** ** Responses *)

Lemma http_response_encodable (status_code : Z) (body : str) :
  encodable body -> encodable (WifiProtocolAPI.http_response status_code body).
Proof.
  intros Hb. unfold WifiProtocolAPI.http_response.
  repeat (apply encodable_app; split);
    try apply str_of_int_encodable; try exact Hb; try reflexivity.
  destruct (status_code =? 200)%Z; reflexivity.
Qed.

(** The three copies of the response text agree. *)
Lemma http_response_class :
  WifiCommandServer.http_response = WifiProtocolAPI.http_response.
Proof. reflexivity. Qed.

Lemma http_response_car :
  RobotCarWifi.http_response = WifiProtocolAPI.http_response.
Proof. reflexivity. Qed.

Section Answering.
Context {W : Type}.

(** Sending a response on a fresh connection and closing it. *)
Lemma send_close_fresh (status_code : Z) (body : str) (w : W) :
  encodable body ->
  exists c,
    (WifiProtocolAPI.send_http_response status_code body ;;
     on_conn conn_close) (Build_Env w fresh_conn)
    = (Build_Env w c, Ret tt) /\
    answered c status_code body.
Proof.
  intros Hb.
  destruct (encode_total _ (http_response_encodable status_code body Hb))
    as [data Hdata].
  exists {| sent := [data]; closed := true |}. split.
  - unfold bind, WifiProtocolAPI.send_http_response. rewrite Hdata. reflexivity.
  - exists data. now split.
Qed.

Lemma send_http_response_class (status_code : Z) (body : str) :
  @WifiCommandServer.send_http_response W status_code body
  = WifiProtocolAPI.send_http_response status_code body.
Proof. reflexivity. Qed.

End Answering.

Lemma send_http_response_car (status_code : Z) (body : str) :
  RobotCarWifi.send_http_response status_code body
  = WifiProtocolAPI.send_http_response status_code body.
Proof. reflexivity. Qed.

(* ================================================================== *)
(** * The route registry                                                *)
(* ================================================================== *)

Section Registry.
Context {W : Type}.
Implicit Types (registry : dict (Handler W)) (path : str) (w : W).

(** The class keeps a verbatim copy of [handle_path]. *)
Lemma handle_path_class (self : WifiCommandServer.WifiCommandServer W) path :
  WifiCommandServer.handle_path self path
  = WifiProtocolAPI.handle_path path (WifiCommandServer.registry self).
Proof. reflexivity. Qed.

Lemma dict_get_absent registry path :
  (forall pattern func, In (pattern, func) registry -> pattern <> path) ->
  dict_get registry path = None.
Proof.
  induction registry as [|[k v] registry IH]; intros H; simpl.
  - reflexivity.
  - destruct (str_eqb path k) eqn:E.
    + apply str_eqb_eq in E. exfalso. apply (H k v); [now left|congruence].
    + apply IH. intros p f Hin. apply (H p f). now right.
Qed.


(** The loop over the items passes every entry that is not a matching
    prefix pattern. *)
Lemma first_prefix_skip (earlier later : dict (Handler W)) path :
  (forall pattern func, In (pattern, func) earlier ->
     endswith pattern (lit "/") = true -> startswith path pattern = false) ->
  WifiProtocolAPI.first_prefix (earlier ++ later) path
  = WifiProtocolAPI.first_prefix later path.
Proof.
  induction earlier as [|[k v] earlier IH]; intros H; simpl.
  - reflexivity.
  - destruct (endswith k (lit "/")) eqn:E; simpl.
    + rewrite (H k v (or_introl eq_refl) E).
      apply IH. intros p f Hin. apply (H p f). now right.
    + apply IH. intros p f Hin. apply (H p f). now right.
Qed.

Lemma first_prefix_none registry path :
  (forall pattern func, In (pattern, func) registry ->
     endswith pattern (lit "/") = true -> startswith path pattern = false) ->
  WifiProtocolAPI.first_prefix registry path = None.
Proof.
  intros H. rewrite <- (app_nil_r registry).
  now rewrite first_prefix_skip.
Qed.

(** What [handle_path] does once the path is normalised, case by case. *)
Lemma handle_path_exact registry path func w :
  dict_get registry (WifiProtocolAPI.strip_query path) = Some func ->
  WifiProtocolAPI.handle_path path registry w = call0 func w.
Proof. unfold WifiProtocolAPI.handle_path. now intros ->. Qed.

Lemma handle_path_unknown registry path w :
  dict_get registry (WifiProtocolAPI.strip_query path) = None ->
  WifiProtocolAPI.first_prefix registry (WifiProtocolAPI.strip_query path)
    = None ->
  WifiProtocolAPI.handle_path path registry w
  = (w, Ret (lit "Unknown path: " ++ WifiProtocolAPI.strip_query path)).
Proof. unfold WifiProtocolAPI.handle_path. now intros -> ->. Qed.

End Registry.

(* ================================================================== *)
(** * Claims on the registry                                            *)
(* ================================================================== *)

(** C1, as stated, fails in four ways, shown on the sample registries
    (the journal starts empty):
    - the bare prefix ["/sound/"] is itself a key, so the exact-match step
      calls its handler with no argument, which for a one-parameter
      function is a [TypeError], not a call with the empty string;
    - ["/sound/beep"] registered as an exact route is served by that route;
    - with the prefix ["/"] registered before ["/sound/"], it is the
      handler of ["/"] that receives ["sound/beep"];
    - a suffix holding a question mark is cut at it before matching. *)
Lemma C1_counterexample :
  (dict_get Sample.routes (lit "/sound/") = Some Sample.sound_route /\
   endswith (lit "/sound/") (lit "/") = true /\
   WifiProtocolAPI.handle_path (lit "/sound/" ++ []) Sample.routes []
     = ([], Raise TypeError) /\
   WifiProtocolAPI.handle_path (lit "/sound/" ++ []) Sample.routes []
     <> call1 Sample.sound_route [] [])
  /\
  (dict_get Sample.routes_exact_below (lit "/sound/") = Some Sample.sound_route /\
   WifiProtocolAPI.handle_path (lit "/sound/" ++ lit "beep")
       Sample.routes_exact_below []
     = call0 Sample.beep_route [] /\
   WifiProtocolAPI.handle_path (lit "/sound/" ++ lit "beep")
       Sample.routes_exact_below []
     <> call1 Sample.sound_route (lit "beep") [])
  /\
  (dict_get Sample.routes_nested (lit "/sound/") = Some Sample.sound_route /\
   WifiProtocolAPI.handle_path (lit "/sound/" ++ lit "beep")
       Sample.routes_nested []
     = call1 Sample.files_route (lit "sound/beep") [] /\
   WifiProtocolAPI.handle_path (lit "/sound/" ++ lit "beep")
       Sample.routes_nested []
     <> call1 Sample.sound_route (lit "beep") [])
  /\
  (WifiProtocolAPI.handle_path (lit "/sound/" ++ lit "a?b") Sample.routes []
     = call1 Sample.sound_route (lit "a") [] /\
   WifiProtocolAPI.handle_path (lit "/sound/" ++ lit "a?b") Sample.routes []
     <> call1 Sample.sound_route (lit "a?b") []).
Proof.
  repeat split; try (vm_compute; reflexivity); vm_compute; discriminate.
Qed.

(** C1 (amended).  Let [pattern], ending in ["/"], be registered with
    handler [func], and let [suffix] be such that [pattern ++ suffix]
    holds no question mark, is not itself a registered pattern, and is
    not matched by a prefix pattern that comes before [pattern] in the
    iteration order of the registry.  Then [handle_path], in the module
    and in the class, is the call [func(suffix)]. *)
Theorem C1_prefix_route_receives_suffix
    (W : Type) (earlier later : dict (Handler W))
    (pattern suffix : str) (func : Handler W) (keepAlive : bool) (w : W) :
  let registry := earlier ++ (pattern, func) :: later in
  endswith pattern (lit "/") = true ->
  contains (lit "?") (pattern ++ suffix) = false ->
  dict_get registry (pattern ++ suffix) = None ->
  (forall other func', In (other, func') earlier ->
     endswith other (lit "/") = true ->
     startswith (pattern ++ suffix) other = false) ->
  WifiProtocolAPI.handle_path (pattern ++ suffix) registry w
    = call1 func suffix w /\
  WifiCommandServer.handle_path
      {| WifiCommandServer.registry := registry;
         WifiCommandServer.keepAlive := keepAlive |}
      (pattern ++ suffix) w
    = call1 func suffix w.
Proof.
  intros registry Hslash Hquery Hexact Hfirst.
  rewrite handle_path_class. cbn [WifiCommandServer.registry].
  assert (H : WifiProtocolAPI.handle_path (pattern ++ suffix) registry w
              = call1 func suffix w); [|now split].
  unfold WifiProtocolAPI.handle_path.
  rewrite (strip_query_id _ Hquery), Hexact.
  unfold registry. rewrite (first_prefix_skip _ _ _ Hfirst).
  cbn [WifiProtocolAPI.first_prefix].
  now rewrite Hslash, startswith_app, slice_from_app.
Qed.

(** The sample registry, asked for ["/sound/beep"]. *)
Lemma C1_prefix_route_receives_suffix_witness :
  let registry := [(lit "/stop", Sample.stop_route)]
                  ++ (lit "/sound/", Sample.sound_route) :: [] in
  endswith (lit "/sound/") (lit "/") = true /\
  contains (lit "?") (lit "/sound/" ++ lit "beep") = false /\
  dict_get registry (lit "/sound/" ++ lit "beep") = None /\
  WifiProtocolAPI.handle_path (lit "/sound/" ++ lit "beep") registry []
    = ([lit "sound(beep)"], Ret (lit "sound:beep")).
Proof.
  intros registry.
  split; [reflexivity|]. split; [reflexivity|]. split; [reflexivity|].
  refine (eq_trans
    (proj1 (C1_prefix_route_receives_suffix Sample.Journal
       [(lit "/stop", Sample.stop_route)] [] (lit "/sound/") (lit "beep")
       Sample.sound_route true [] _ _ _ _)) _).
  - reflexivity.
  - reflexivity.
  - reflexivity.
  - intros other func' [H|[]] _. inversion H. reflexivity.
  - reflexivity.
Defined.

(** C2.  When the normalised path is a registered pattern, [handle_path]
    is the call of its handler with no argument.  The registry is
    arbitrary: prefix patterns that also match the path, wherever they
    stand in it, play no part. *)
Theorem C2_exact_route_called_without_argument
    (W : Type) (registry : dict (Handler W)) (path pattern : str)
    (func : Handler W) (keepAlive : bool) (w : W) :
  WifiProtocolAPI.strip_query path = pattern ->
  dict_get registry pattern = Some func ->
  WifiProtocolAPI.handle_path path registry w = call0 func w /\
  WifiCommandServer.handle_path
      {| WifiCommandServer.registry := registry;
         WifiCommandServer.keepAlive := keepAlive |} path w
    = call0 func w.
Proof.
  intros <- Hget. rewrite handle_path_class. cbn [WifiCommandServer.registry].
  split; now apply handle_path_exact.
Qed.

(** With ["/sound/"] registered before the exact route ["/sound/beep"],
    the exact route still wins. *)
Lemma C2_exact_route_called_without_argument_witness :
  WifiProtocolAPI.strip_query (lit "/sound/beep?x=1") = lit "/sound/beep" /\
  dict_get Sample.routes_exact_below (lit "/sound/beep")
    = Some Sample.beep_route /\
  WifiProtocolAPI.handle_path (lit "/sound/beep?x=1")
      Sample.routes_exact_below []
    = ([lit "beep()"], Ret (lit "beep!")).
Proof.
  split; [reflexivity|]. split; [reflexivity|].
  refine (eq_trans
    (proj1 (C2_exact_route_called_without_argument Sample.Journal
       Sample.routes_exact_below (lit "/sound/beep?x=1") (lit "/sound/beep")
       Sample.beep_route true [] _ _)) _); reflexivity.
Defined.

(** C3.  When no registered pattern equals the normalised path and no
    registered prefix pattern starts it, [handle_path] returns, raising
    nothing and leaving the world as it was, the text
    ["Unknown path: "] followed by the normalised path; and for a [GET]
    request with that path one pass of [listen_http_wireless] answers
    200 with that text as body. *)
Theorem C3_unknown_path_answered_200
    (W : Type) (registry : dict (Handler W)) (path : str) (w : W) :
  let normalised := WifiProtocolAPI.strip_query path in
  (forall pattern func, In (pattern, func) registry ->
     pattern <> normalised /\
     ~ (endswith pattern (lit "/") = true /\
        startswith normalised pattern = true)) ->
  WifiProtocolAPI.handle_path path registry w
    = (w, Ret (lit "Unknown path: " ++ normalised)) /\
  forall (request : bytes) (request_str : str),
    decode request = Some request_str ->
    2 <= length (parts request_str) ->
    nth 0 (parts request_str) [] = lit "GET" ->
    nth 1 (parts request_str) [] = path ->
    exists c,
      WifiProtocolAPI.listen_pass registry request (Build_Env w fresh_conn)
        = (Build_Env w c, Ret tt) /\
      answered c 200 (lit "Unknown path: " ++ normalised).
Proof.
  intros normalised Hno.
  assert (Hpath : WifiProtocolAPI.handle_path path registry w
                  = (w, Ret (lit "Unknown path: " ++ normalised))).
  { apply handle_path_unknown.
    - apply dict_get_absent. intros p f Hin. now apply (Hno p f).
    - apply first_prefix_none. intros p f Hin Hslash.
      destruct (startswith (WifiProtocolAPI.strip_query path) p) eqn:E;
        [|reflexivity].
      exfalso. destruct (Hno p f Hin) as [_ Hn]. apply Hn. now split. }
  split; [exact Hpath|].
  intros request request_str Hdec Hlen Hget Hnth.
  assert (Hbody : encodable (lit "Unknown path: " ++ normalised)).
  { apply encodable_app. split; [reflexivity|].
    apply (encodable_incl _ path); [apply strip_query_chars|].
    apply (encodable_incl _ (request_line request_str)).
    - rewrite <- Hnth. apply nth_split_chars.
    - apply (encodable_incl _ request_str); [apply hd_split_chars|].
      now apply (decode_encodable request). }
  destruct (send_close_fresh 200 _ w Hbody) as (c & Hsend & Hans).
  exists c. split; [|exact Hans].
  unfold WifiProtocolAPI.listen_pass, try_except, WifiProtocolAPI.listen_try.
  destruct request as [|x r].
  { exfalso. inversion Hdec; subst request_str.
    vm_compute in Hlen. lia. }
  rewrite Hdec. fold (request_line request_str). fold (parts request_str).
  apply Nat.ltb_ge in Hlen. rewrite Hlen, Hget, Hnth. cbn [str_eqb negb].
  change (str_eqb (lit "GET") (lit "GET")) with true. cbn [negb].
  unfold bind at 1. unfold on_world. cbn [world conn]. rewrite Hpath.
  fold normalised. now rewrite Hsend.
Qed.

(** [GET /nope?x=1] on the sample registry. *)
Lemma C3_unknown_path_answered_200_witness :
  WifiProtocolAPI.handle_path (lit "/nope?x=1") Sample.routes []
    = ([], Ret (lit "Unknown path: /nope")) /\
  exists c,
    WifiProtocolAPI.listen_pass Sample.routes
      (Sample.request_of (Sample.ascii_bytes "GET /nope?x=1 HTTP/1.1"))
      (Build_Env [] fresh_conn)
    = (Build_Env [] c, Ret tt) /\
    answered c 200 (lit "Unknown path: /nope").
Proof.
  assert (Hno : forall pattern func, In (pattern, func) Sample.routes ->
            pattern <> WifiProtocolAPI.strip_query (lit "/nope?x=1") /\
            ~ (endswith pattern (lit "/") = true /\
               startswith (WifiProtocolAPI.strip_query (lit "/nope?x=1"))
                 pattern = true)).
  { intros pattern func [H|[H|[]]]; inversion H; subst; split;
      try (vm_compute; discriminate);
      intros [H1 H2]; vm_compute in H1, H2; discriminate. }
  destruct (C3_unknown_path_answered_200 Sample.Journal Sample.routes
              (lit "/nope?x=1") [] Hno) as [Hpath Hpass].
  split; [exact Hpath|].
  apply (Hpass _ (lit "GET /nope?x=1 HTTP/1.1" ++ CRLF ++ CRLF));
    vm_compute; first [reflexivity | lia].
Defined.

(** C4.  A question mark and whatever follows it, appended to any path,
    change nothing: in the module, in the class and in the hard-coded
    server, [handle_path] on [path ++ "?" ++ query] is [handle_path] on
    [path]. *)
Theorem C4_query_suffix_ignored
    (W : Type) (registry : dict (Handler W)) (keepAlive : bool)
    (path query : str) (w : W) (servos : RobotCarWifi.Servos) :
  WifiProtocolAPI.handle_path (path ++ lit "?" ++ query) registry w
    = WifiProtocolAPI.handle_path path registry w /\
  WifiCommandServer.handle_path
      {| WifiCommandServer.registry := registry;
         WifiCommandServer.keepAlive := keepAlive |}
      (path ++ lit "?" ++ query) w
    = WifiCommandServer.handle_path
        {| WifiCommandServer.registry := registry;
           WifiCommandServer.keepAlive := keepAlive |} path w /\
  RobotCarWifi.handle_path (path ++ lit "?" ++ query) servos
    = RobotCarWifi.handle_path path servos.
Proof.
  rewrite !handle_path_class. unfold WifiProtocolAPI.handle_path.
  unfold RobotCarWifi.handle_path.
  change RobotCarWifi.strip_query with WifiProtocolAPI.strip_query.
  now rewrite !strip_query_app.
Qed.

(** The example of the specification, on the sample registry and on the
    hard-coded server. *)
Lemma C4_stop_with_query :
  WifiProtocolAPI.handle_path (lit "/stop?x=1") Sample.routes []
    = WifiProtocolAPI.handle_path (lit "/stop") Sample.routes [] /\
  WifiProtocolAPI.handle_path (lit "/stop") Sample.routes []
    = ([lit "stop()"], Ret (lit "stop")) /\
  RobotCarWifi.handle_path (lit "/stop?x=1") []
    = RobotCarWifi.handle_path (lit "/stop") [].
Proof. repeat split. Qed.

(* ================================================================== *)
(** * Claims on the responses                                           *)
(* ================================================================== *)

(** For a body of ASCII characters the number written after
    [Content-Length:] is the number of bytes of the encoded body. *)
Lemma encode_ascii_length (body : str) :
  forallb is_ascii body = true ->
  exists data, encode body = Some data /\ length data = length body.
Proof.
  induction body as [|c body IH]; simpl; intros H.
  - now exists [].
  - apply andb_true_iff in H as [Hc Hb]. destruct (IH Hb) as (bs & -> & Hlen).
    unfold encode_char. unfold is_ascii in Hc. rewrite Hc.
    eexists. split; [reflexivity|]. simpl. now rewrite Hlen.
Qed.

(** The reason phrase is ["OK"] for 200 and ["ERROR"] otherwise, and the
    number after [Content-Length:] is [len(body)]. *)
Lemma http_response_shape (status_code : Z) (body : str) :
  WifiProtocolAPI.http_response status_code body
  = lit "HTTP/1.1 " ++ str_of_int status_code ++ lit " "
    ++ (if (status_code =? 200)%Z then lit "OK" else lit "ERROR") ++ CRLF
    ++ lit "Content-Type: text/plain" ++ CRLF
    ++ lit "Connection: close" ++ CRLF
    ++ lit "Content-Length: " ++ str_of_int (Z.of_nat (length body)) ++ CRLF
    ++ CRLF ++ body.
Proof. reflexivity. Qed.

(** C5 (the code departs from the claim).  [Content-Length] is computed
    as [len(body)] on the text, before the response is encoded, so it
    counts characters.  For the body ["é"] the header says 1 and two
    bytes follow; the request [GET /é HTTP/1.1], which no route matches,
    is answered with [Content-Length: 16] and a body of 17 bytes, by the
    module server and by the hard-coded one alike. *)
Theorem C5_content_length_counts_characters :
  let head (n : string) : bytes :=
    Sample.ascii_bytes "HTTP/1.1 200 OK" ++ Sample.crlf ++
    Sample.ascii_bytes "Content-Type: text/plain" ++ Sample.crlf ++
    Sample.ascii_bytes "Connection: close" ++ Sample.crlf ++
    Sample.ascii_bytes "Content-Length: " ++ Sample.ascii_bytes n ++
    Sample.crlf ++ Sample.crlf in
  let request :=
    Sample.request_of (Sample.ascii_bytes "GET /" ++ Sample.e_acute ++
                       Sample.ascii_bytes " HTTP/1.1") in
  let body := Sample.ascii_bytes "Unknown path: /" ++ Sample.e_acute in
  (encode (WifiProtocolAPI.http_response 200 [233%N])
     = Some (head "1"%string ++ Sample.e_acute) /\
   encode (RobotCarWifi.http_response 200 [233%N])
     = Some (head "1"%string ++ Sample.e_acute) /\
   length Sample.e_acute = 2) /\
  (WifiProtocolAPI.listen_pass (W := unit) [] request (Build_Env tt fresh_conn)
     = (Build_Env tt {| sent := [head "16"%string ++ body]; closed := true |},
        Ret tt) /\
   RobotCarWifi.main_pass request (Build_Env [] fresh_conn)
     = (Build_Env [] {| sent := [head "16"%string ++ body]; closed := true |},
        Ret tt) /\
   length body = 17).
Proof. repeat split. Qed.

(* ================================================================== *)
(** * Claims on the connection loop                                     *)
(* ================================================================== *)

(** A request line with two tokens comes from a non-empty buffer. *)
Lemma parsed_not_empty (request : bytes) (request_str : str) :
  decode request = Some request_str ->
  2 <= length (parts request_str) ->
  exists x r, request = x :: r.
Proof.
  intros Hdec Hlen. destruct request as [|x r]; [|eauto].
  exfalso. inversion Hdec; subst request_str. vm_compute in Hlen. lia.
Qed.

(** Entering the [try] block of a pass with a request that decodes. *)
Ltac enter_pass request_str Hdec :=
  unfold WifiProtocolAPI.listen_pass, WifiProtocolAPI.listen_try,
         WifiCommandServer.listen_pass, WifiCommandServer.listen_try,
         RobotCarWifi.main_pass, RobotCarWifi.main_try, try_except;
  change RobotCarWifi.send_http_response
    with (@WifiProtocolAPI.send_http_response RobotCarWifi.Servos);
  change (@WifiCommandServer.send_http_response ?A)
    with (@WifiProtocolAPI.send_http_response A);
  rewrite Hdec;
  fold (request_line request_str); fold (parts request_str).

(** Answering with a fixed text and closing. *)
Ltac answer status_code body w :=
  let c := fresh "c" in
  let Hsend := fresh "Hsend" in
  let Hans := fresh "Hans" in
  destruct (send_close_fresh status_code body w eq_refl)
    as (c & Hsend & Hans);
  exists c; split; [rewrite Hsend; reflexivity | exact Hans].

(** C6, as stated, fails on the class: its refusal carries another
    text.  A [POST /stop] sent to a server built on the sample registry
    is not answered with 405 and ["Only GET supported"]. *)
Lemma C6_counterexample :
  let request := Sample.request_of (Sample.ascii_bytes "POST /stop HTTP/1.1") in
  exists c,
    WifiCommandServer.listen_pass (WifiCommandServer.init Sample.routes)
      request (Build_Env [] fresh_conn)
    = (Build_Env [] c, Ret tt) /\
    answered c 405 (lit "Only GET supported at this time") /\
    ~ answered c 405 (lit "Only GET supported").
Proof.
  eexists. split; [vm_compute; reflexivity|]. split.
  - eexists. split; vm_compute; reflexivity.
  - intros (data & Hdata & Hc). vm_compute in Hdata.
    injection Hdata as <-. vm_compute in Hc. discriminate.
Qed.

(** C6 (amended).  For a request that decodes, whose request line has
    at least two tokens, the first of which is not ["GET"], each of the
    three servers answers 405, closes the connection and leaves the
    world of the handlers (the servos, for the hard-coded server)
    untouched, whatever the registry holds.  The body is
    ["Only GET supported"] in [WifiProtocolAPI.py] and [RobotCarWifi.py]
    and ["Only GET supported at this time"] in [WifiCommandServer.py]. *)
Theorem C6_other_methods_refused
    (W : Type) (registry : dict (Handler W))
    (self : WifiCommandServer.WifiCommandServer W)
    (request : bytes) (request_str : str)
    (w : W) (servos : RobotCarWifi.Servos) :
  decode request = Some request_str ->
  2 <= length (parts request_str) ->
  nth 0 (parts request_str) [] <> lit "GET" ->
  (exists c,
     WifiProtocolAPI.listen_pass registry request (Build_Env w fresh_conn)
       = (Build_Env w c, Ret tt) /\
     answered c 405 (lit "Only GET supported")) /\
  (exists c,
     RobotCarWifi.main_pass request (Build_Env servos fresh_conn)
       = (Build_Env servos c, Ret tt) /\
     answered c 405 (lit "Only GET supported")) /\
  (exists c,
     WifiCommandServer.listen_pass self request (Build_Env w fresh_conn)
       = (Build_Env w c, Ret tt) /\
     answered c 405 (lit "Only GET supported at this time")).
Proof.
  intros Hdec Hlen Hmethod.
  destruct (parsed_not_empty _ _ Hdec Hlen) as (x & r & ->).
  apply Nat.ltb_ge in Hlen. apply str_eqb_neq in Hmethod.
  repeat split; enter_pass request_str Hdec; rewrite Hlen, Hmethod;
    cbn [negb].
  - answer 405%Z (lit "Only GET supported") w.
  - answer 405%Z (lit "Only GET supported") servos.
  - answer 405%Z (lit "Only GET supported at this time") w.
Qed.

(** [POST /stop]: refused, and the journal of the handlers stays empty. *)
Lemma C6_other_methods_refused_witness :
  let request := Sample.request_of (Sample.ascii_bytes "POST /stop HTTP/1.1") in
  decode request = Some (lit "POST /stop HTTP/1.1" ++ CRLF ++ CRLF) /\
  nth 0 (parts (lit "POST /stop HTTP/1.1" ++ CRLF ++ CRLF)) [] = lit "POST" /\
  (exists c,
     WifiProtocolAPI.listen_pass Sample.routes request (Build_Env [] fresh_conn)
       = (Build_Env [] c, Ret tt) /\
     answered c 405 (lit "Only GET supported")) /\
  (exists c,
     RobotCarWifi.main_pass request (Build_Env [] fresh_conn)
       = (Build_Env [] c, Ret tt) /\
     answered c 405 (lit "Only GET supported")).
Proof.
  intros request.
  split; [reflexivity|]. split; [reflexivity|].
  destruct (C6_other_methods_refused Sample.Journal Sample.routes
              (WifiCommandServer.init Sample.routes) request
              (lit "POST /stop HTTP/1.1" ++ CRLF ++ CRLF) [] [])
    as (Hapi & Hcar & _).
  - reflexivity.
  - vm_compute. lia.
  - vm_compute. discriminate.
  - split; assumption.
Defined.

(** C7, as stated, fails on the empty buffer: it decodes (to the empty
    string), its request line has a single token, and it gets no
    response at all, the [if not request] guard closing the connection
    first. *)
Lemma C7_counterexample :
  decode [] = Some [] /\
  length (parts []) < 2 /\
  WifiProtocolAPI.listen_pass Sample.routes [] (Build_Env [] fresh_conn)
    = (Build_Env [] {| sent := []; closed := true |}, Ret tt) /\
  RobotCarWifi.main_pass [] (Build_Env [] fresh_conn)
    = (Build_Env [] {| sent := []; closed := true |}, Ret tt) /\
  ~ answered {| sent := []; closed := true |} 400 (lit "Malformed request").
Proof.
  repeat split; try (vm_compute; lia).
  intros (data & _ & H). discriminate.
Qed.

(** C7 (amended).  In each of the three servers, whatever the registry:
    - a non-empty request that decodes and whose request line has fewer
      than two tokens is answered 400 with body ["Malformed request"];
    - a request that does not decode is answered 400 with body
      ["Bad request encoding"], whatever its bytes would split into:
      decoding is tried first;
    - an empty buffer is answered nothing.
    In all three cases the connection is closed and the world of the
    handlers (the servos) is left untouched. *)
Theorem C7_unparsable_requests_refused
    (W : Type) (registry : dict (Handler W))
    (self : WifiCommandServer.WifiCommandServer W)
    (request : bytes) (w : W) (servos : RobotCarWifi.Servos) :
  let api c := WifiProtocolAPI.listen_pass registry request
                 (Build_Env w fresh_conn) = (Build_Env w c, Ret tt) in
  let car c := RobotCarWifi.main_pass request
                 (Build_Env servos fresh_conn) = (Build_Env servos c, Ret tt) in
  let class c := WifiCommandServer.listen_pass self request
                   (Build_Env w fresh_conn) = (Build_Env w c, Ret tt) in
  (forall request_str,
     request <> [] ->
     decode request = Some request_str ->
     length (parts request_str) < 2 ->
     (exists c, api c /\ answered c 400 (lit "Malformed request")) /\
     (exists c, car c /\ answered c 400 (lit "Malformed request")) /\
     (exists c, class c /\ answered c 400 (lit "Malformed request"))) /\
  (decode request = None ->
     (exists c, api c /\ answered c 400 (lit "Bad request encoding")) /\
     (exists c, car c /\ answered c 400 (lit "Bad request encoding")) /\
     (exists c, class c /\ answered c 400 (lit "Bad request encoding"))) /\
  (request = [] ->
     (exists c, api c /\ unanswered c) /\
     (exists c, car c /\ unanswered c) /\
     (exists c, class c /\ unanswered c)).
Proof.
  intros api car class. unfold api, car, class. repeat apply conj.
  - intros request_str Hne Hdec Hlen.
    destruct request as [|x r]; [congruence|].
    apply Nat.ltb_lt in Hlen.
    repeat split; enter_pass request_str Hdec; rewrite Hlen.
    + answer 400%Z (lit "Malformed request") w.
    + answer 400%Z (lit "Malformed request") servos.
    + answer 400%Z (lit "Malformed request") w.
  - intros Hdec.
    destruct request as [|x r]; [discriminate|].
    repeat split;
      unfold WifiProtocolAPI.listen_pass, WifiProtocolAPI.listen_try,
             WifiCommandServer.listen_pass, WifiCommandServer.listen_try,
             RobotCarWifi.main_pass, RobotCarWifi.main_try, try_except;
      change RobotCarWifi.send_http_response
        with (@WifiProtocolAPI.send_http_response RobotCarWifi.Servos);
      change (@WifiCommandServer.send_http_response ?A)
        with (@WifiProtocolAPI.send_http_response A);
      rewrite Hdec.
    + answer 400%Z (lit "Bad request encoding") w.
    + answer 400%Z (lit "Bad request encoding") servos.
    + answer 400%Z (lit "Bad request encoding") w.
  - intros ->. repeat split; eexists; split; reflexivity.
Qed.

(** A request line of one word, and a request with the byte [0xFF]. *)
Lemma C7_unparsable_requests_refused_witness :
  let word := Sample.request_of (Sample.ascii_bytes "ONLYONEWORD") in
  let broken := Sample.ascii_bytes "GET /" ++ [xff] ++
                Sample.ascii_bytes " HTTP/1.1" in
  (word <> [] /\
   decode word = Some (lit "ONLYONEWORD" ++ CRLF ++ CRLF) /\
   length (parts (lit "ONLYONEWORD" ++ CRLF ++ CRLF)) < 2 /\
   exists c,
     RobotCarWifi.main_pass word (Build_Env [] fresh_conn)
       = (Build_Env [] c, Ret tt) /\
     answered c 400 (lit "Malformed request")) /\
  (decode broken = None /\
   exists c,
     WifiProtocolAPI.listen_pass Sample.routes broken (Build_Env [] fresh_conn)
       = (Build_Env [] c, Ret tt) /\
     answered c 400 (lit "Bad request encoding")).
Proof.
  intros word broken. split.
  - split; [discriminate|]. split; [reflexivity|].
    split; [vm_compute; lia|].
    refine (proj1 (proj2 (proj1
      (C7_unparsable_requests_refused Sample.Journal Sample.routes
         (WifiCommandServer.init Sample.routes) word [] [])
      (lit "ONLYONEWORD" ++ CRLF ++ CRLF) _ _ _))).
    + discriminate.
    + reflexivity.
    + vm_compute. lia.
  - split; [reflexivity|].
    refine (proj1 (proj1 (proj2
      (C7_unparsable_requests_refused Sample.Journal Sample.routes
         (WifiCommandServer.init Sample.routes) broken [] [])) _)).
    reflexivity.
Defined.

(** ** The root path *)

Lemma dict_get_of_member {W : Type} (registry : dict (Handler W))
    (pattern : str) (func : Handler W) :
  In (pattern, func) registry -> dict_get registry pattern <> None.
Proof.
  induction registry as [|[k v] registry IH]; simpl; [contradiction|].
  intros [H|H].
  - inversion H; subst. now rewrite str_eqb_refl.
  - destruct (str_eqb pattern k); [discriminate|now apply IH].
Qed.

(** No prefix pattern other than ["/"] itself starts the root path. *)
Lemma first_prefix_root {W : Type} (registry : dict (Handler W)) (root : str) :
  root = lit "/" \/ root = [] ->
  dict_get registry root = None ->
  WifiProtocolAPI.first_prefix registry root = None.
Proof.
  intros Hroot Hget. apply first_prefix_none.
  intros pattern func Hin Hslash.
  destruct (startswith root pattern) eqn:E; [exfalso|reflexivity].
  destruct pattern as [|c [|c' pattern]].
  - discriminate Hslash.
  - destruct Hroot as [-> | ->]; [|discriminate E].
    change (lit "/") with [47%N] in *.
    cbn [startswith] in E. rewrite andb_true_r in E.
    apply N.eqb_eq in E. subst c.
    now apply (dict_get_of_member _ _ _ Hin).
  - destruct Hroot as [-> | ->]; [|discriminate E].
    change (lit "/") with [47%N] in E.
    cbn [startswith] in E. rewrite andb_false_r in E. discriminate.
Qed.

(** C8, as stated, fails on the registry-based dispatcher, which has no
    root route of its own: on the sample registry [GET /] is answered
    ["Unknown path: /"], not the help text. *)
Lemma C8_counterexample :
  let request := Sample.request_of (Sample.ascii_bytes "GET / HTTP/1.1") in
  WifiProtocolAPI.handle_path (lit "/") Sample.routes []
    = ([], Ret (lit "Unknown path: /")) /\
  lit "Unknown path: /" <> RobotCarWifi.help_text /\
  exists c,
    WifiProtocolAPI.listen_pass Sample.routes request (Build_Env [] fresh_conn)
      = (Build_Env [] c, Ret tt) /\
    answered c 200 (lit "Unknown path: /") /\
    ~ answered c 200 RobotCarWifi.help_text.
Proof.
  split; [reflexivity|]. split; [vm_compute; discriminate|].
  eexists. split; [vm_compute; reflexivity|]. split.
  - eexists. split; vm_compute; reflexivity.
  - intros (data & Hdata & Hc). vm_compute in Hdata.
    injection Hdata as <-. vm_compute in Hc. discriminate.
Qed.

(** C8 (amended).  Let the normalised path be ["/"] or empty.
    - In the hard-coded server [handle_path] returns the help text and
      writes to no servo, this test coming before every command; a [GET]
      request with that path is answered 200 with the help text.
    - The registry-based [handle_path] has no root route: it calls, with
      no argument, the handler registered for the root path if there is
      one, and otherwise reports the path as unknown. *)
Theorem C8_root_path
    (W : Type) (registry : dict (Handler W)) (path : str)
    (w : W) (servos : RobotCarWifi.Servos) :
  let root := RobotCarWifi.strip_query path in
  root = lit "/" \/ root = [] ->
  (RobotCarWifi.handle_path path servos
     = (servos, Ret RobotCarWifi.help_text) /\
   forall (request : bytes) (request_str : str),
     decode request = Some request_str ->
     2 <= length (parts request_str) ->
     nth 0 (parts request_str) [] = lit "GET" ->
     nth 1 (parts request_str) [] = path ->
     exists c,
       RobotCarWifi.main_pass request (Build_Env servos fresh_conn)
         = (Build_Env servos c, Ret tt) /\
       answered c 200 RobotCarWifi.help_text) /\
  (forall func,
     dict_get registry root = Some func ->
     WifiProtocolAPI.handle_path path registry w = call0 func w) /\
  (dict_get registry root = None ->
     WifiProtocolAPI.handle_path path registry w
       = (w, Ret (lit "Unknown path: " ++ root))).
Proof.
  intros root Hroot.
  assert (Hhelp : RobotCarWifi.handle_path path servos
                  = (servos, Ret RobotCarWifi.help_text)).
  { unfold RobotCarWifi.handle_path. fold root.
    destruct Hroot as [-> | ->]; reflexivity. }
  repeat apply conj.
  - exact Hhelp.
  - intros request request_str Hdec Hlen Hget Hnth.
    destruct (parsed_not_empty _ _ Hdec Hlen) as (x & r & ->).
    apply Nat.ltb_ge in Hlen.
    enter_pass request_str Hdec. rewrite Hlen, Hget, Hnth.
    change (str_eqb (lit "GET") (lit "GET")) with true. cbn [negb].
    unfold bind at 1. unfold on_world. cbn [world conn]. rewrite Hhelp.
    answer 200%Z RobotCarWifi.help_text servos.
  - intros func Hget. now apply handle_path_exact.
  - intros Hget. apply handle_path_unknown; [exact Hget|].
    now apply first_prefix_root.
Qed.

(** [GET /?help] on the hard-coded server. *)
Lemma C8_root_path_witness :
  let request := Sample.request_of (Sample.ascii_bytes "GET /?help HTTP/1.1") in
  RobotCarWifi.strip_query (lit "/?help") = lit "/" /\
  RobotCarWifi.handle_path (lit "/?help") []
    = ([], Ret RobotCarWifi.help_text) /\
  exists c,
    RobotCarWifi.main_pass request (Build_Env [] fresh_conn)
      = (Build_Env [] c, Ret tt) /\
    answered c 200 RobotCarWifi.help_text.
Proof.
  intros request. split; [reflexivity|].
  destruct (C8_root_path Sample.Journal Sample.routes (lit "/?help") [] []
              (or_introl eq_refl)) as [[Hhelp Hpass] _].
  split; [exact Hhelp|].
  apply (Hpass request (lit "GET /?help HTTP/1.1" ++ CRLF ++ CRLF));
    vm_compute; first [reflexivity | lia].
Defined.

(* ================================================================== *)
(** * The keyboard client                                               *)
(* ================================================================== *)

Lemma held_In (k : str) (active_keys : list str) :
  WifiCommandClient.held k active_keys = true <-> In k active_keys.
Proof.
  unfold WifiCommandClient.held. rewrite existsb_exists. split.
  - intros (x & Hin & E). apply str_eqb_eq in E. now subst.
  - intros H. exists k. split; [exact H|apply str_eqb_refl].
Qed.

Lemma bool_eqb_iff (b1 b2 : bool) :
  Bool.eqb b1 b2 = true <-> (b1 = true <-> b2 = true).
Proof. destruct b1, b2; simpl; intuition discriminate. Qed.

(** [only_held], decided from the four membership tests. *)
Lemma only_held_tests (k : str) (active_keys : list str) :
  only_held k active_keys <->
  forallb (fun k' => Bool.eqb (WifiCommandClient.held k' active_keys)
                              (str_eqb k' k))
          movement_keys = true.
Proof.
  unfold only_held. rewrite forallb_forall.
  split; intros H k' Hk'.
  - apply bool_eqb_iff. rewrite held_In, str_eqb_eq. now apply H.
  - rewrite <- held_In, <- str_eqb_eq. apply bool_eqb_iff. now apply H.
Qed.

(** C9.  [compute_command] returns ["forward"], ["back"], ["left"],
    ["right"] exactly when, of the four movement keys, only [w], only
    [s], only [a], only [d] is held, and ["stop"] exactly when none of
    these four situations holds, that is when no movement key or more
    than one is held. *)
Theorem C9_compute_command (active_keys : list str) :
  let command := WifiCommandClient.compute_command active_keys in
  (command = lit "forward" <-> only_held (lit "w") active_keys) /\
  (command = lit "back" <-> only_held (lit "s") active_keys) /\
  (command = lit "left" <-> only_held (lit "a") active_keys) /\
  (command = lit "right" <-> only_held (lit "d") active_keys) /\
  (command = lit "stop" <->
     ~ (only_held (lit "w") active_keys \/ only_held (lit "s") active_keys \/
        only_held (lit "a") active_keys \/ only_held (lit "d") active_keys)).
Proof.
  intros command. unfold command, WifiCommandClient.compute_command.
  rewrite !only_held_tests. unfold movement_keys. cbn [forallb].
  change (lit "w") with [119%N]. change (lit "a") with [97%N].
  change (lit "s") with [115%N]. change (lit "d") with [100%N].
  cbn [str_eqb N.eqb Pos.eqb andb].
  destruct (WifiCommandClient.held [119%N] active_keys),
           (WifiCommandClient.held [97%N] active_keys),
           (WifiCommandClient.held [115%N] active_keys),
           (WifiCommandClient.held [100%N] active_keys);
    cbn [andb negb Bool.eqb];
    repeat split; intros H; try discriminate H; try reflexivity;
    try (intros [H'|[H'|[H'|H']]]; discriminate H');
    try (exfalso; apply H; tauto).
Qed.

(** The table of the sixteen combinations of the four keys, with other
    keys held or not. *)
Lemma compute_command_samples :
  map (fun keys => WifiCommandClient.compute_command (map lit keys))
      [ []; ["w"]; ["s"]; ["a"]; ["d"]; ["w"; "x"]; ["w"; "s"];
        ["a"; "d"]; ["w"; "a"]; ["w"; "a"; "s"; "d"] ]%string
  = map lit [ "stop"; "forward"; "back"; "left"; "right"; "forward"; "stop";
              "stop"; "stop"; "stop" ]%string.
Proof. reflexivity. Qed.

(* ================================================================== *)
(** * The class-wrapped server                                          *)
(* ================================================================== *)

(** C10.  In the class, for a request that decodes, whose request line
    has at least two tokens, the first being ["GET"]: the call
    [self.handle_path(path, self.registry)] raises [TypeError] before
    any handler runs, the [try] block ends with that exception on a
    connection nothing was sent on, the [except Exception] clause closes
    the connection, and the pass ends normally: the client receives no
    response and the world of the handlers is untouched.  And [start],
    whatever arrives, raises [TypeError] without serving anything. *)
Theorem C10_class_server_never_answers_get
    (W : Type) (self : WifiCommandServer.WifiCommandServer W)
    (request : bytes) (request_str : str) (incoming : list bytes) (w : W) :
  decode request = Some request_str ->
  2 <= length (parts request_str) ->
  nth 0 (parts request_str) [] = lit "GET" ->
  WifiCommandServer.listen_try self request (Build_Env w fresh_conn)
    = (Build_Env w fresh_conn, Raise TypeError) /\
  (exists c,
     WifiCommandServer.listen_pass self request (Build_Env w fresh_conn)
       = (Build_Env w c, Ret tt) /\
     unanswered c) /\
  WifiCommandServer.start self incoming w = (w, Raise TypeError).
Proof.
  intros Hdec Hlen Hget.
  destruct (parsed_not_empty _ _ Hdec Hlen) as (x & r & ->).
  apply Nat.ltb_ge in Hlen.
  assert (Htry : WifiCommandServer.listen_try self (x :: r)
                   (Build_Env w fresh_conn)
                 = (Build_Env w fresh_conn, Raise TypeError)).
  { unfold WifiCommandServer.listen_try. rewrite Hdec.
    fold (request_line request_str). fold (parts request_str).
    rewrite Hlen, Hget. reflexivity. }
  split; [exact Htry|]. split.
  - exists {| sent := []; closed := true |}. split; [|reflexivity].
    unfold WifiCommandServer.listen_pass, try_except. now rewrite Htry.
  - reflexivity.
Qed.

(** [GET /stop] sent to a server built on the sample registry. *)
Lemma C10_class_server_never_answers_get_witness :
  let server := WifiCommandServer.init Sample.routes in
  let request := Sample.request_of (Sample.ascii_bytes "GET /stop HTTP/1.1") in
  decode request = Some (lit "GET /stop HTTP/1.1" ++ CRLF ++ CRLF) /\
  WifiCommandServer.listen_pass server request (Build_Env [] fresh_conn)
    = (Build_Env [] {| sent := []; closed := true |}, Ret tt) /\
  WifiCommandServer.start server [request] [] = ([], Raise TypeError).
Proof.
  intros server request. split; [reflexivity|].
  destruct (C10_class_server_never_answers_get Sample.Journal server request
              (lit "GET /stop HTTP/1.1" ++ CRLF ++ CRLF) [request] [])
    as (_ & (c & Hpass & Hc) & Hstart).
  - reflexivity.
  - vm_compute. lia.
  - reflexivity.
  - split; [|exact Hstart]. unfold unanswered in Hc. subst c. exact Hpass.
Defined.

(* ================================================================== *)
(** * Further properties: registering routes                            *)
(* ================================================================== *)

Section Registering.
Context {W : Type}.
Implicit Types (registry : dict (Handler W)) (path pattern : str).

Lemma dict_get_set registry pattern (func : Handler W) path :
  dict_get (dict_set registry pattern func) path
  = if str_eqb path pattern then Some func else dict_get registry path.
Proof.
  induction registry as [|[k v] registry IH]; simpl.
  - reflexivity.
  - destruct (str_eqb pattern k) eqn:E; simpl.
    + apply str_eqb_eq in E. subst k.
      now destruct (str_eqb path pattern).
    + destruct (str_eqb path k) eqn:E'.
      * apply str_eqb_eq in E'. subst k.
        destruct (str_eqb path pattern) eqn:E''; [|reflexivity].
        apply str_eqb_eq in E''. subst. rewrite str_eqb_refl in E.
        discriminate.
      * exact IH.
Qed.

(** The patterns after a registration, in iteration order. *)
Lemma dict_set_keys registry pattern (func : Handler W) :
  map fst (dict_set registry pattern func)
  = if dict_mem registry pattern then map fst registry
    else map fst registry ++ [pattern].
Proof.
  unfold dict_mem.
  induction registry as [|[k v] registry IH]; simpl.
  - reflexivity.
  - destruct (str_eqb pattern k) eqn:E; simpl; [reflexivity|].
    rewrite IH. now destruct (dict_get registry pattern).
Qed.

Lemma dict_mem_In registry pattern :
  dict_mem registry pattern = true <-> In pattern (map fst registry).
Proof.
  unfold dict_mem.
  induction registry as [|[k v] registry IH]; simpl.
  - split; [discriminate|contradiction].
  - destruct (str_eqb pattern k) eqn:E.
    + apply str_eqb_eq in E. split; [now left|reflexivity].
    + rewrite IH. split; [now right|].
      intros [H|H]; [|exact H]. subst k. rewrite str_eqb_refl in E.
      discriminate.
Qed.

Lemma dict_set_NoDup registry pattern (func : Handler W) :
  NoDup (map fst registry) ->
  NoDup (map fst (dict_set registry pattern func)).
Proof.
  intros H. rewrite dict_set_keys.
  destruct (dict_mem registry pattern) eqn:E; [exact H|].
  apply NoDup_app; [exact H|constructor; [intros []|constructor]|].
  intros x Hx [<-|[]]. apply dict_mem_In in Hx. congruence.
Qed.

(** Lookup does not see an entry under another key. *)
Lemma dict_get_without (earlier later : dict (Handler W)) pattern
    (func : Handler W) path :
  path <> pattern ->
  dict_get (earlier ++ (pattern, func) :: later) path
  = dict_get (earlier ++ later) path.
Proof.
  intros Hne. induction earlier as [|[k v] earlier IH]; simpl.
  - apply str_eqb_neq in Hne. now rewrite Hne.
  - now rewrite IH.
Qed.

Lemma first_prefix_without (earlier later : dict (Handler W)) pattern
    (func : Handler W) path :
  startswith path pattern = false ->
  WifiProtocolAPI.first_prefix (earlier ++ (pattern, func) :: later) path
  = WifiProtocolAPI.first_prefix (earlier ++ later) path.
Proof.
  intros Hno. induction earlier as [|[k v] earlier IH]; simpl.
  - now rewrite Hno, andb_false_r.
  - now rewrite IH.
Qed.



End Registering.

(** ** Question marks *)

Lemma contains_qmark_In (s : str) :
  contains (lit "?") s = true <-> In 63%N s.
Proof.
  change (lit "?") with [63%N].
  induction s as [|c s IH]; cbn [contains startswith].
  - split; [discriminate|contradiction].
  - rewrite andb_true_r, orb_true_iff, IH, N.eqb_eq.
    split; (intros [H|H]; [left; congruence|now right]).
Qed.

Lemma contains_qmark_not_In (s : str) :
  contains (lit "?") s = false <-> ~ In 63%N s.
Proof.
  rewrite <- contains_qmark_In. destruct (contains (lit "?") s);
    split; congruence.
Qed.

Lemma startswith_incl (s p : str) : startswith s p = true -> incl p s.
Proof.
  intros H. rewrite (startswith_split s p H). now apply incl_appl, incl_refl.
Qed.

(** The normalised path: no question mark in it, and the path is it or
    it followed by a question mark and a query. *)
Lemma strip_query_shape (path : str) :
  contains (lit "?") (WifiProtocolAPI.strip_query path) = false /\
  (path = WifiProtocolAPI.strip_query path \/
   exists query, path = WifiProtocolAPI.strip_query path ++ lit "?" ++ query).
Proof.
  rewrite strip_query_hd. change (lit "?") with [63%N].
  induction path as [|c path [IH1 IH2]].
  - split; [reflexivity|now left].
  - cbn [split_go may_split andb startswith].
    rewrite andb_true_r. destruct (N.eqb c 63) eqn:E.
    + apply N.eqb_eq in E. subst c. split; [reflexivity|].
      right. now exists path.
    + rewrite hd_cons_piece. split.
      * cbn [contains startswith]. now rewrite E, IH1.
      * destruct IH2 as [IH2|[q IH2]].
        -- left. now f_equal.
        -- right. exists q. cbn [app]. f_equal. exact IH2.
Qed.

(** X1.  Looking a pattern up after [register_route(pattern, func)]
    gives [func] for that pattern and what it gave before for every
    other one, in the module and in the class. *)
Theorem X1_register_then_lookup
    (W : Type) (registry : dict (Handler W))
    (self : WifiCommandServer.WifiCommandServer W)
    (pattern path : str) (func : Handler W) :
  dict_get (WifiProtocolAPI.register_route registry pattern func) path
    = (if str_eqb path pattern then Some func else dict_get registry path) /\
  dict_get (WifiCommandServer.get_registry
              (WifiCommandServer.register_route self pattern func)) path
    = (if str_eqb path pattern then Some func
       else dict_get (WifiCommandServer.get_registry self) path) /\
  WifiCommandServer.keepAlive
    (WifiCommandServer.register_route self pattern func)
    = WifiCommandServer.keepAlive self.
Proof.
  unfold WifiProtocolAPI.register_route, WifiCommandServer.get_registry.
  cbn. now rewrite !dict_get_set.
Qed.

(** X2.  However many times and in whatever order routes are registered
    on an empty registry, no pattern occurs twice in it, and each
    pattern is mapped to the handler of its last registration. *)
Theorem X2_registry_keys_unique_last_wins
    (W : Type) (registrations : list (str * Handler W)) (pattern : str) :
  let registry :=
    fold_left (fun r pf => WifiProtocolAPI.register_route r (fst pf) (snd pf))
              registrations [] in
  NoDup (map fst registry) /\
  dict_get registry pattern = dict_get (rev registrations) pattern.
Proof.
  cbv zeta.
  assert (H : forall start,
    NoDup (map fst start) ->
    NoDup (map fst (fold_left
      (fun r pf => WifiProtocolAPI.register_route r (fst pf) (snd pf))
      registrations start)) /\
    dict_get (fold_left
      (fun r pf => WifiProtocolAPI.register_route r (fst pf) (snd pf))
      registrations start) pattern
    = match dict_get (rev registrations) pattern with
      | Some f => Some f
      | None => dict_get start pattern
      end).
  { induction registrations as [|[p f] rest IH]; intros start Hstart.
    - split; [exact Hstart|reflexivity].
    - cbn [fold_left fst snd rev].
      destruct (IH (WifiProtocolAPI.register_route start p f)) as [H1 H2].
      { now apply dict_set_NoDup. }
      split; [exact H1|]. rewrite H2.
      unfold WifiProtocolAPI.register_route. rewrite dict_get_set.
      clear. induction (rev rest) as [|[k v] l IHl]; simpl.
      + now destruct (str_eqb pattern p).
      + destruct (str_eqb pattern k); [reflexivity|exact IHl]. }
  destruct (H [] (NoDup_nil _)) as [H1 H2]. split; [exact H1|].
  rewrite H2. now destruct (dict_get (rev registrations) pattern).
Qed.

(** X3.  A route registered under a pattern without question mark is
    reached by that pattern, alone or followed by any query:
    [handle_path] is then the call of the registered handler with no
    argument, whatever else the registry holds. *)
Theorem X3_registered_route_is_reached
    (W : Type) (registry : dict (Handler W))
    (self : WifiCommandServer.WifiCommandServer W)
    (pattern query : str) (func : Handler W) (w : W) :
  contains (lit "?") pattern = false ->
  let registry' := WifiProtocolAPI.register_route registry pattern func in
  let self' := WifiCommandServer.register_route self pattern func in
  WifiProtocolAPI.handle_path pattern registry' w = call0 func w /\
  WifiProtocolAPI.handle_path (pattern ++ lit "?" ++ query) registry' w
    = call0 func w /\
  WifiCommandServer.handle_path self' pattern w = call0 func w /\
  WifiCommandServer.handle_path self' (pattern ++ lit "?" ++ query) w
    = call0 func w.
Proof.
  intros Hq registry' self'.
  assert (Hget : forall r, dict_get (dict_set r pattern func)
                   (WifiProtocolAPI.strip_query pattern) = Some func).
  { intros r. rewrite (strip_query_id _ Hq), dict_get_set.
    now rewrite str_eqb_refl. }
  rewrite !handle_path_class.
  unfold WifiProtocolAPI.handle_path. rewrite !strip_query_app.
  unfold registry', self', WifiProtocolAPI.register_route.
  cbn [WifiCommandServer.register_route WifiCommandServer.registry].
  now rewrite !Hget.
Qed.

(** Registering ["/ping"] on the sample registry. *)
Lemma X3_registered_route_is_reached_witness :
  contains (lit "?") (lit "/ping") = false /\
  WifiProtocolAPI.handle_path (lit "/ping" ++ lit "?" ++ lit "n=1")
    (WifiProtocolAPI.register_route Sample.routes (lit "/ping")
       Sample.beep_route) []
  = ([lit "beep()"], Ret (lit "beep!")).
Proof.
  split; [reflexivity|].
  refine (eq_trans (proj1 (proj2
    (X3_registered_route_is_reached Sample.Journal Sample.routes
       (WifiCommandServer.init Sample.routes) (lit "/ping") (lit "n=1")
       Sample.beep_route [] _))) _); reflexivity.
Defined.

(** X4.  A route registered under a pattern that holds a question mark
    is never used: for every path, [handle_path] does what it does on
    the registry without that entry. *)
Theorem X4_pattern_with_question_mark_is_dead
    (W : Type) (earlier later : dict (Handler W))
    (pattern path : str) (func : Handler W) (w : W) :
  contains (lit "?") pattern = true ->
  WifiProtocolAPI.handle_path path (earlier ++ (pattern, func) :: later) w
  = WifiProtocolAPI.handle_path path (earlier ++ later) w.
Proof.
  intros Hq. unfold WifiProtocolAPI.handle_path.
  destruct (strip_query_shape path) as [Hclean _].
  apply contains_qmark_In in Hq. apply contains_qmark_not_In in Hclean.
  assert (Hne : WifiProtocolAPI.strip_query path <> pattern).
  { intros E. apply Hclean. now rewrite E. }
  assert (Hno : startswith (WifiProtocolAPI.strip_query path) pattern = false).
  { destruct (startswith (WifiProtocolAPI.strip_query path) pattern) eqn:E;
      [|reflexivity].
    exfalso. apply Hclean. now apply (startswith_incl _ _ E). }
  rewrite (dict_get_without _ _ _ _ _ Hne).
  now rewrite (first_prefix_without _ _ _ _ _ Hno).
Qed.

(** ["/a?b"] registered between the two sample routes. *)
Lemma X4_pattern_with_question_mark_is_dead_witness :
  contains (lit "?") (lit "/a?b") = true /\
  WifiProtocolAPI.handle_path (lit "/a?b")
    ([(lit "/stop", Sample.stop_route)]
     ++ (lit "/a?b", Sample.beep_route)
     :: [(lit "/sound/", Sample.sound_route)]) []
  = ([], Ret (lit "Unknown path: /a")).
Proof.
  split; [reflexivity|].
  refine (eq_trans
    (X4_pattern_with_question_mark_is_dead Sample.Journal
       [(lit "/stop", Sample.stop_route)]
       [(lit "/sound/", Sample.sound_route)]
       (lit "/a?b") (lit "/a?b") Sample.beep_route [] _) _); reflexivity.
Defined.

(** X5.  The path that the three [handle_path] match on holds no
    question mark; the requested path is that path, or that path
    followed by a question mark and a query; and normalising twice
    changes nothing. *)
Theorem X5_normalised_path (path : str) :
  let normalised := WifiProtocolAPI.strip_query path in
  WifiCommandServer.strip_query path = normalised /\
  RobotCarWifi.strip_query path = normalised /\
  contains (lit "?") normalised = false /\
  (path = normalised \/ exists query, path = normalised ++ lit "?" ++ query) /\
  WifiProtocolAPI.strip_query normalised = normalised.
Proof.
  intros normalised. unfold normalised.
  destruct (strip_query_shape path) as [H1 H2].
  repeat split; try assumption. now apply strip_query_id.
Qed.


(* ================================================================== *)
(** * Further properties: the hard-coded server                         *)
(* ================================================================== *)

Lemma clamp_in_range (t : Q) :
  (-1 <= Qmax (Qmin t 1.0) (-1.0) /\ Qmax (Qmin t 1.0) (-1.0) <= 1)%Q.
Proof.
  split.
  - apply Qle_trans with (-1.0)%Q; [discriminate|apply Q.le_max_r].
  - apply Q.max_lub.
    + apply Qle_trans with (1.0)%Q; [apply Q.le_min_r|discriminate].
    + discriminate.
Qed.


(** What [move_servo] writes, whatever was written before. *)
Lemma move_servo_writes (left_throttle right_throttle : Q) :
  exists tl tr,
    (forall servos,
       RobotCarWifi.move_servo left_throttle right_throttle servos
       = (servos ++ [RobotCarWifi.LeftThrottle tl;
                     RobotCarWifi.RightThrottle tr], Ret tt)) /\
    in_range (RobotCarWifi.LeftThrottle tl) /\
    in_range (RobotCarWifi.RightThrottle tr) /\
    tl = Qmax (Qmin ((left_throttle + RobotCarWifi.left_adjust) * 1.0) 1.0)
              (-1.0) /\
    tr = Qmax (Qmin ((right_throttle + RobotCarWifi.right_adjust) * (-1.0))
                    1.0) (-1.0).
Proof.
  eexists. eexists. split; [|split; [|split; [|split; reflexivity]]].
  - intros servos. unfold RobotCarWifi.move_servo. cbv zeta.
    rewrite <- app_assoc. reflexivity.
  - apply clamp_in_range.
  - apply clamp_in_range.
Qed.

(** The shape of every answer of the hard-coded [handle_path]: some
    writes, in range, appended to the servos, and a text returned; both
    depend on the path alone. *)
Lemma car_handle_path_shape (path : str) :
  exists writes body,
    (forall servos,
       RobotCarWifi.handle_path path servos = (servos ++ writes, Ret body)) /\
    Forall in_range writes /\
    (length writes = 0 \/ length writes = 2) /\
    (encodable path -> encodable body).
Proof.
  assert (Hmove : forall l r name,
    encodable name ->
    exists writes body,
      (forall servos,
         (RobotCarWifi.move_servo l r ;; ret name) servos
         = (servos ++ writes, Ret body)) /\
      Forall in_range writes /\
      (length writes = 0 \/ length writes = 2) /\
      (encodable path -> encodable body)).
  { intros l r name Hname.
    destruct (move_servo_writes l r) as (tl & tr & Hw & Hl & Hr & _).
    exists [RobotCarWifi.LeftThrottle tl; RobotCarWifi.RightThrottle tr], name.
    split; [|split; [|split]].
    - intros servos. unfold bind. now rewrite Hw.
    - constructor; [exact Hl|]. constructor; [exact Hr|constructor].
    - now right.
    - intros _. exact Hname. }
  assert (Hstill : forall body,
    (encodable path -> encodable body) ->
    exists writes body',
      (forall servos, ret body servos = (servos ++ writes, Ret body')) /\
      Forall in_range writes /\
      (length writes = 0 \/ length writes = 2) /\
      (encodable path -> encodable body')).
  { intros body Hbody. exists [], body. split; [|split; [|split]].
    - intros servos. unfold ret. now rewrite app_nil_r.
    - constructor.
    - now left.
    - exact Hbody. }
  assert (Hclean : encodable path ->
                   encodable (RobotCarWifi.strip_query path)).
  { apply encodable_incl. apply strip_query_chars. }
  unfold RobotCarWifi.handle_path, RobotCarWifi.stop.
  destruct (str_eqb _ (lit "/") || str_eqb _ []).
  { apply Hstill. intros _. reflexivity. }
  destruct (str_eqb _ (lit "/stop")); [now apply Hmove|].
  destruct (str_eqb _ (lit "/forward")); [now apply Hmove|].
  destruct (str_eqb _ (lit "/back")); [now apply Hmove|].
  destruct (str_eqb _ (lit "/left")); [now apply Hmove|].
  destruct (str_eqb _ (lit "/right")); [now apply Hmove|].
  destruct (startswith _ (lit "/sound/")).
  - apply Hstill. intros Hp. apply encodable_app. split; [reflexivity|].
    apply (encodable_incl _ (RobotCarWifi.strip_query path));
      [|now apply Hclean].
    unfold slice_from. intros c Hc.
    rewrite <- (firstn_skipn (length (lit "/sound/"))).
    apply in_or_app. now right.
  - apply Hstill. intros Hp. apply encodable_app. split; [reflexivity|].
    now apply Hclean.
Qed.



(** X8.  The hard-coded [handle_path] never raises and never rewrites
    what the servos received: for every path there are a text and a
    list of writes, empty or made of two writes in the range from -1 to
    1, such that from every state of the servos it returns that text
    and appends those writes.  The same request thus has the same
    effect and the same answer whatever came before. *)
Theorem X8_car_handle_path_depends_on_path_only (path : str) :
  exists writes body,
    (forall servos,
       RobotCarWifi.handle_path path servos = (servos ++ writes, Ret body)) /\
    Forall in_range writes /\
    (length writes = 0 \/ length writes = 2).
Proof.
  destruct (car_handle_path_shape path) as (writes & body & H1 & H2 & H3 & _).
  now exists writes, body.
Qed.

(** X9.  In the hard-coded server every path ["/sound/<name>"], the
    bare ["/sound/"] included, with or without a query after it, is
    answered ["sound:<name>"] and writes to no servo. *)
Theorem X9_car_sound_route
    (name query : str) (servos : RobotCarWifi.Servos) :
  contains (lit "?") name = false ->
  RobotCarWifi.handle_path (lit "/sound/" ++ name) servos
    = (servos, Ret (lit "sound:" ++ name)) /\
  RobotCarWifi.handle_path (lit "/sound/" ++ name ++ lit "?" ++ query) servos
    = (servos, Ret (lit "sound:" ++ name)).
Proof.
  intros Hq.
  assert (Hclean : RobotCarWifi.strip_query (lit "/sound/" ++ name)
                   = lit "/sound/" ++ name).
  { apply strip_query_id. apply contains_qmark_not_In.
    apply contains_qmark_not_In in Hq.
    intros Hin. apply in_app_or in Hin as [Hin|Hin]; [|contradiction].
    vm_compute in Hin. intuition discriminate. }
  assert (H : RobotCarWifi.handle_path (lit "/sound/" ++ name) servos
              = (servos, Ret (lit "sound:" ++ name))).
  { unfold RobotCarWifi.handle_path. rewrite Hclean. reflexivity. }
  split; [exact H|].
  rewrite <- H. rewrite app_assoc.
  unfold RobotCarWifi.handle_path.
  change RobotCarWifi.strip_query with WifiProtocolAPI.strip_query.
  now rewrite strip_query_app.
Qed.

(** [/sound/] alone, and [/sound/beep?x=1]. *)
Lemma X9_car_sound_route_witness :
  contains (lit "?") [] = false /\
  RobotCarWifi.handle_path (lit "/sound/" ++ []) [] = ([], Ret (lit "sound:")) /\
  contains (lit "?") (lit "beep") = false /\
  RobotCarWifi.handle_path (lit "/sound/" ++ lit "beep" ++ lit "?" ++ lit "x=1")
    [] = ([], Ret (lit "sound:beep")).
Proof.
  split; [reflexivity|]. split.
  - refine (eq_trans (proj1 (X9_car_sound_route [] [] [] _)) _); reflexivity.
  - split; [reflexivity|].
    refine (eq_trans
      (proj2 (X9_car_sound_route (lit "beep") (lit "x=1") [] _)) _);
      reflexivity.
Defined.

(** One pass of the main loop of the hard-coded server, case by case. *)
Lemma car_pass_shape (request : bytes) (servos : RobotCarWifi.Servos) :
  exists writes c,
    RobotCarWifi.main_pass request (Build_Env servos fresh_conn)
      = (Build_Env (servos ++ writes) c, Ret tt) /\
    Forall in_range writes /\
    (request = [] -> unanswered c /\ writes = []) /\
    (request <> [] -> served c).
Proof.
  assert (Hserved : forall c status_code body,
            answered c status_code body -> served c).
  { intros c status_code body (data & _ & ->). now exists data. }
  assert (Hfixed : forall status_code body,
    encodable body ->
    exists writes c,
      (let (s', o) :=
         (WifiProtocolAPI.send_http_response status_code body ;;
          on_conn conn_close) (Build_Env servos fresh_conn) in
       match o with
       | Ret a => (s', Ret a)
       | Raise e =>
           if is_Exception e then on_conn conn_close s' else (s', Raise e)
       end) = (Build_Env (servos ++ writes) c, Ret tt) /\
      Forall in_range writes /\ served c).
  { intros status_code body Hbody.
    destruct (send_close_fresh status_code body servos Hbody)
      as (c & Hsend & Hans).
    exists [], c. rewrite Hsend, app_nil_r.
    split; [reflexivity|]. split; [constructor|]. eapply Hserved, Hans. }
  destruct request as [|x r].
  { exists [], {| sent := []; closed := true |}. rewrite app_nil_r.
    split; [reflexivity|]. split; [constructor|].
    split; [intros _; now split|congruence]. }
  assert (Hgoal : forall writes c,
    RobotCarWifi.main_pass (x :: r) (Build_Env servos fresh_conn)
      = (Build_Env (servos ++ writes) c, Ret tt) /\
    Forall in_range writes /\ served c ->
    RobotCarWifi.main_pass (x :: r) (Build_Env servos fresh_conn)
      = (Build_Env (servos ++ writes) c, Ret tt) /\
    Forall in_range writes /\
    (x :: r = [] -> unanswered c /\ writes = []) /\
    (x :: r <> [] -> served c)).
  { intros writes c (H1 & H2 & H3).
    split; [exact H1|]. split; [exact H2|].
    split; [discriminate|intros _; exact H3]. }
  destruct (decode (x :: r)) as [request_str|] eqn:Hdec.
  - destruct (length (parts request_str) <? 2) eqn:Hlen.
    + destruct (Hfixed 400%Z (lit "Malformed request") eq_refl)
        as (writes & c & H).
      exists writes, c. apply Hgoal. enter_pass request_str Hdec.
      now rewrite Hlen.
    + destruct (str_eqb (nth 0 (parts request_str) []) (lit "GET")) eqn:Hget.
      * destruct (car_handle_path_shape (nth 1 (parts request_str) []))
          as (writes & body & Hh & Hr & _ & Henc).
        assert (Hbody : encodable body).
        { apply Henc.
          apply (encodable_incl _ (request_line request_str));
            [apply nth_split_chars|].
          apply (encodable_incl _ request_str); [apply hd_split_chars|].
          now apply (decode_encodable (x :: r)). }
        destruct (@send_close_fresh RobotCarWifi.Servos 200 body
                    (servos ++ writes) Hbody) as (c & Hsend & Hans).
        exists writes, c. apply Hgoal. split; [|split; [exact Hr|]].
        -- enter_pass request_str Hdec. rewrite Hlen, Hget. cbn [negb].
           unfold bind at 1. unfold on_world. cbn [world conn].
           rewrite Hh. cbv beta iota. cbn [world conn]. now rewrite Hsend.
        -- eapply Hserved, Hans.
      * destruct (Hfixed 405%Z (lit "Only GET supported") eq_refl)
          as (writes & c & H).
        exists writes, c. apply Hgoal. enter_pass request_str Hdec.
        now rewrite Hlen, Hget.
  - destruct (Hfixed 400%Z (lit "Bad request encoding") eq_refl)
      as (writes & c & H).
    exists writes, c. apply Hgoal.
    unfold RobotCarWifi.main_pass, RobotCarWifi.main_try, try_except.
    change RobotCarWifi.send_http_response
      with (@WifiProtocolAPI.send_http_response RobotCarWifi.Servos).
    now rewrite Hdec.
Qed.

(** X10.  The hard-coded server answers every non-empty request with
    exactly one response and closes the connection; the pass ends
    without an exception, and what it appends to the servos' history
    lies in the range from -1 to 1. *)
Theorem X10_car_answers_every_request
    (request : bytes) (servos : RobotCarWifi.Servos) :
  request <> [] ->
  exists writes c,
    RobotCarWifi.main_pass request (Build_Env servos fresh_conn)
      = (Build_Env (servos ++ writes) c, Ret tt) /\
    served c /\
    Forall in_range writes.
Proof.
  intros Hne.
  destruct (car_pass_shape request servos) as (writes & c & H1 & H2 & _ & H4).
  exists writes, c. split; [exact H1|]. split; [now apply H4|exact H2].
Qed.

(** A single byte that is not UTF-8. *)
Lemma X10_car_answers_every_request_witness :
  [xff] <> [] /\
  exists writes c,
    RobotCarWifi.main_pass [xff] (Build_Env [] fresh_conn)
      = (Build_Env ([] ++ writes) c, Ret tt) /\
    served c /\ Forall in_range writes.
Proof.
  split; [discriminate|].
  apply (X10_car_answers_every_request [xff] []). discriminate.
Defined.

(** X11.  The main loop of the hard-coded server never ends with an
    exception: whatever arrives on the successive connections, it
    leaves one connection per request, each closed after at most one
    response, and only appends writes in the range from -1 to 1 to the
    servos' history. *)
Theorem X11_car_main_loop_serves_all
    (incoming : list bytes) (servos : RobotCarWifi.Servos) :
  exists writes conns,
    RobotCarWifi.main_loop incoming servos = (servos ++ writes, Ret conns) /\
    length conns = length incoming /\
    Forall settled conns /\
    Forall in_range writes.
Proof.
  revert servos. induction incoming as [|request later IH]; intros servos.
  - exists [], []. cbn. rewrite app_nil_r. repeat split; constructor.
  - destruct (car_pass_shape request servos)
      as (writes & c & Hpass & Hr & Hempty & Hfull).
    destruct (IH (servos ++ writes)) as (writes' & conns & Hloop & Hlen & Hs & Hr').
    exists (writes ++ writes'), (c :: conns).
    split; [|split; [|split]].
    + cbn [RobotCarWifi.main_loop]. rewrite Hpass. cbn [world conn].
      unfold bind. rewrite Hloop. now rewrite app_assoc.
    + cbn. now rewrite Hlen.
    + constructor; [|exact Hs].
      destruct request as [|x r].
      * destruct (Hempty eq_refl) as [-> _]. split; [reflexivity|cbn; lia].
      * destruct Hfull as [data ->]; [discriminate|].
        split; [reflexivity|cbn; lia].
    + apply Forall_app. now split.
Qed.

(* ================================================================== *)
(** * Further properties: one pass of the registry-based servers        *)
(* ================================================================== *)

Section Passes.
Context {W : Type}.
Implicit Types (registry : dict (Handler W)) (w : W).

(** Sending a response whose body may not be encodable. *)
Lemma send_close_any (status_code : Z) (body : str) w :
  (exists data,
     encode (WifiProtocolAPI.http_response status_code body) = Some data /\
     (WifiProtocolAPI.send_http_response status_code body ;;
      on_conn conn_close) (Build_Env w fresh_conn)
     = (Build_Env w {| sent := [data]; closed := true |}, Ret tt)) \/
  (WifiProtocolAPI.send_http_response status_code body ;;
   on_conn conn_close) (Build_Env w fresh_conn)
  = (Build_Env w fresh_conn, Raise UnicodeError).
Proof.
  unfold bind, WifiProtocolAPI.send_http_response.
  destruct (encode (WifiProtocolAPI.http_response status_code body))
    as [data|]; [left|right; reflexivity].
  exists data. now split.
Qed.

(** The pass of the module server on a request that was parsed. *)
Lemma api_pass_parsed registry (request : bytes) (request_str : str)
    (e : Env W) :
  decode request = Some request_str ->
  2 <= length (parts request_str) ->
  WifiProtocolAPI.listen_pass registry request e
  = try_except
      (if negb (str_eqb (nth 0 (parts request_str) []) (lit "GET"))
       then WifiProtocolAPI.send_http_response 405 (lit "Only GET supported") ;;
            on_conn conn_close
       else result_text <-
              on_world (WifiProtocolAPI.handle_path
                          (nth 1 (parts request_str) []) registry) ;;
            WifiProtocolAPI.send_http_response 200 result_text ;;
            on_conn conn_close)
      is_Exception (fun _ => on_conn conn_close) e.
Proof.
  intros Hdec Hlen.
  destruct (parsed_not_empty _ _ Hdec Hlen) as (x & r & ->).
  apply Nat.ltb_ge in Hlen.
  unfold WifiProtocolAPI.listen_pass, WifiProtocolAPI.listen_try.
  rewrite Hdec. fold (request_line request_str). fold (parts request_str).
  now rewrite Hlen.
Qed.

(** The same pass for a [GET], from what [handle_path] does. *)
Lemma api_pass_get registry (request : bytes) (request_str : str) w :
  decode request = Some request_str ->
  2 <= length (parts request_str) ->
  nth 0 (parts request_str) [] = lit "GET" ->
  WifiProtocolAPI.listen_pass registry request (Build_Env w fresh_conn)
  = match WifiProtocolAPI.handle_path (nth 1 (parts request_str) [])
            registry w with
    | (w', Ret text) =>
        try_except
          (WifiProtocolAPI.send_http_response 200 text ;; on_conn conn_close)
          is_Exception (fun _ => on_conn conn_close) (Build_Env w' fresh_conn)
    | (w', Raise x) =>
        if is_Exception x
        then (Build_Env w' {| sent := []; closed := true |}, Ret tt)
        else (Build_Env w' fresh_conn, Raise x)
    end.
Proof.
  intros Hdec Hlen Hget.
  rewrite (api_pass_parsed _ _ _ _ Hdec Hlen), Hget.
  change (str_eqb (lit "GET") (lit "GET")) with true. cbn [negb].
  unfold try_except, bind at 1, on_world. cbn [world conn].
  destruct (WifiProtocolAPI.handle_path _ registry w) as [w' [text|x]].
  - reflexivity.
  - now destruct (is_Exception x).
Qed.

End Passes.

(** X12.  In the module server, when a [GET] request is parsed and
    [handle_path] returns a text that UTF-8 can encode, the pass sends
    one response, 200 with that text as body, closes the connection
    and leaves the world as the handler left it. *)
Theorem X12_get_result_sent_as_200
    (W : Type) (registry : dict (Handler W))
    (request : bytes) (request_str text : str) (w w' : W) :
  decode request = Some request_str ->
  2 <= length (parts request_str) ->
  nth 0 (parts request_str) [] = lit "GET" ->
  WifiProtocolAPI.handle_path (nth 1 (parts request_str) []) registry w
    = (w', Ret text) ->
  encodable text ->
  exists c,
    WifiProtocolAPI.listen_pass registry request (Build_Env w fresh_conn)
      = (Build_Env w' c, Ret tt) /\
    answered c 200 text.
Proof.
  intros Hdec Hlen Hget Hpath Htext.
  rewrite (api_pass_get _ _ _ _ Hdec Hlen Hget), Hpath.
  destruct (send_close_fresh 200 text w' Htext) as (c & Hsend & Hans).
  exists c. split; [|exact Hans]. unfold try_except. now rewrite Hsend.
Qed.

(** [GET /sound/beep?x=1] on the sample registry. *)
Lemma X12_get_result_sent_as_200_witness :
  exists c,
    WifiProtocolAPI.listen_pass Sample.routes
      (Sample.request_of (Sample.ascii_bytes "GET /sound/beep?x=1 HTTP/1.1"))
      (Build_Env [] fresh_conn)
    = (Build_Env [lit "sound(beep)"] c, Ret tt) /\
    answered c 200 (lit "sound:beep").
Proof.
  apply (X12_get_result_sent_as_200 Sample.Journal Sample.routes _
           (lit "GET /sound/beep?x=1 HTTP/1.1" ++ CRLF ++ CRLF));
    vm_compute; first [reflexivity | lia].
Defined.

(** X13.  In the module server, when the handler reached by a parsed
    [GET] raises, no response is sent.  An exception that
    [except Exception] catches is swallowed: the connection is closed
    and the pass ends normally.  Any other ([KeyboardInterrupt],
    [SystemExit]) leaves the pass, the connection still open.  Either
    way the world stays as the handler left it. *)
Theorem X13_handler_exception_gives_no_response
    (W : Type) (registry : dict (Handler W))
    (request : bytes) (request_str : str) (x : exn) (w w' : W) :
  decode request = Some request_str ->
  2 <= length (parts request_str) ->
  nth 0 (parts request_str) [] = lit "GET" ->
  WifiProtocolAPI.handle_path (nth 1 (parts request_str) []) registry w
    = (w', Raise x) ->
  WifiProtocolAPI.listen_pass registry request (Build_Env w fresh_conn)
  = if is_Exception x
    then (Build_Env w' {| sent := []; closed := true |}, Ret tt)
    else (Build_Env w' fresh_conn, Raise x).
Proof.
  intros Hdec Hlen Hget Hpath.
  now rewrite (api_pass_get _ _ _ _ Hdec Hlen Hget), Hpath.
Qed.

(** [GET /sound/]: the one-parameter handler is called without argument. *)
Lemma X13_handler_exception_gives_no_response_witness :
  WifiProtocolAPI.handle_path (lit "/sound/") Sample.routes []
    = ([], Raise TypeError) /\
  WifiProtocolAPI.listen_pass Sample.routes
    (Sample.request_of (Sample.ascii_bytes "GET /sound/ HTTP/1.1"))
    (Build_Env [] fresh_conn)
  = (Build_Env [] {| sent := []; closed := true |}, Ret tt).
Proof.
  split; [reflexivity|].
  refine (eq_trans
    (X13_handler_exception_gives_no_response Sample.Journal Sample.routes _
       (lit "GET /sound/ HTTP/1.1" ++ CRLF ++ CRLF) TypeError [] [] _ _ _ _) _);
    vm_compute; first [reflexivity | lia].
Defined.

(** X14.  Whatever the request, the registry and the handlers, a pass of
    the module server sends at most one response.  If it ends normally
    the connection is closed; if it ends with an exception, that
    exception is one [except Exception] does not catch and nothing was
    sent. *)
Theorem X14_pass_sends_at_most_one_response
    (W : Type) (registry : dict (Handler W)) (request : bytes) (w : W) :
  match WifiProtocolAPI.listen_pass registry request (Build_Env w fresh_conn)
  with
  | (e, Ret _) => settled (conn e)
  | (e, Raise x) => is_Exception x = false /\ conn e = fresh_conn
  end.
Proof.
  assert (Hsend : forall status_code body (w' : W),
    match try_except
            (WifiProtocolAPI.send_http_response status_code body ;;
             on_conn conn_close)
            is_Exception (fun _ => on_conn conn_close)
            (Build_Env w' fresh_conn) with
    | (e, Ret _) => settled (conn e)
    | (e, Raise x) => is_Exception x = false /\ conn e = fresh_conn
    end).
  { intros status_code body w'. unfold try_except.
    destruct (send_close_any status_code body w') as [(data & _ & ->)| ->];
      cbn; split; cbn; [reflexivity|lia|reflexivity|lia]. }
  destruct request as [|x r].
  { cbn. split; [reflexivity|cbn; lia]. }
  destruct (decode (x :: r)) as [request_str|] eqn:Hdec.
  - destruct (Nat.lt_ge_cases (length (parts request_str)) 2) as [Hlen|Hlen].
    + apply Nat.ltb_lt in Hlen.
      unfold WifiProtocolAPI.listen_pass, WifiProtocolAPI.listen_try.
      rewrite Hdec. fold (request_line request_str).
      fold (parts request_str). rewrite Hlen. apply Hsend.
    + destruct (str_eqb (nth 0 (parts request_str) []) (lit "GET")) eqn:Hget.
      * apply str_eqb_eq in Hget.
        rewrite (api_pass_get _ _ _ _ Hdec Hlen Hget).
        destruct (WifiProtocolAPI.handle_path _ registry w) as [w' [text|y]].
        -- apply Hsend.
        -- destruct (is_Exception y) eqn:Hy.
           ++ split; [reflexivity|cbn; lia].
           ++ now split.
      * rewrite (api_pass_parsed _ _ _ _ Hdec Hlen), Hget. apply Hsend.
  - unfold WifiProtocolAPI.listen_pass, WifiProtocolAPI.listen_try.
    rewrite Hdec. apply Hsend.
Qed.

(** X15.  Of a request the module server reads the first two tokens of
    the first line and nothing else: two requests that agree on them
    are served alike, whatever protocol version, headers or body they
    carry. *)
Theorem X15_only_method_and_path_matter
    (W : Type) (registry : dict (Handler W))
    (request request' : bytes) (request_str request_str' : str) (e : Env W) :
  decode request = Some request_str ->
  decode request' = Some request_str' ->
  2 <= length (parts request_str) ->
  2 <= length (parts request_str') ->
  nth 0 (parts request_str) [] = nth 0 (parts request_str') [] ->
  nth 1 (parts request_str) [] = nth 1 (parts request_str') [] ->
  WifiProtocolAPI.listen_pass registry request e
  = WifiProtocolAPI.listen_pass registry request' e.
Proof.
  intros Hdec Hdec' Hlen Hlen' Hmethod Hpath.
  rewrite (api_pass_parsed _ _ _ _ Hdec Hlen).
  rewrite (api_pass_parsed _ _ _ _ Hdec' Hlen').
  now rewrite Hmethod, Hpath.
Qed.

(** A bare request line, and the same with a version, a header and a
    body. *)
Lemma X15_only_method_and_path_matter_witness :
  let short := Sample.ascii_bytes "GET /stop" in
  let long := Sample.ascii_bytes "GET /stop HTTP/1.0" ++ Sample.crlf ++
              Sample.ascii_bytes "Host: 192.168.4.1" ++ Sample.crlf ++
              Sample.crlf ++ Sample.ascii_bytes "payload" in
  WifiProtocolAPI.listen_pass Sample.routes short (Build_Env [] fresh_conn)
  = WifiProtocolAPI.listen_pass Sample.routes long (Build_Env [] fresh_conn).
Proof.
  intros short long.
  apply (X15_only_method_and_path_matter Sample.Journal Sample.routes
           short long (lit "GET /stop")
           (lit "GET /stop HTTP/1.0" ++ CRLF ++ lit "Host: 192.168.4.1"
            ++ CRLF ++ CRLF ++ lit "payload"));
    vm_compute; first [reflexivity | lia].
Defined.

(* ================================================================== *)
(** * Further properties: the class-wrapped server                      *)
(* ================================================================== *)

(** One pass of the class server, case by case. *)
Lemma class_pass_shape
    (W : Type) (self : WifiCommandServer.WifiCommandServer W)
    (request : bytes) (w : W) :
  exists c,
    WifiCommandServer.listen_pass self request (Build_Env w fresh_conn)
      = (Build_Env w c, Ret tt) /\
    (unanswered c \/
     answered c 400 (lit "Bad request encoding") \/
     answered c 400 (lit "Malformed request") \/
     answered c 405 (lit "Only GET supported at this time")).
Proof.
  destruct request as [|x r].
  { eexists. split; [reflexivity|]. now left. }
  destruct (decode (x :: r)) as [request_str|] eqn:Hdec.
  - destruct (length (parts request_str) <? 2) eqn:Hlen.
    + destruct (send_close_fresh 400 (lit "Malformed request") w eq_refl)
        as (c & Hsend & Hans).
      exists c. split; [|tauto].
      enter_pass request_str Hdec. now rewrite Hlen, Hsend.
    + destruct (str_eqb (nth 0 (parts request_str) []) (lit "GET")) eqn:Hget.
      * exists {| sent := []; closed := true |}. split; [|now left].
        enter_pass request_str Hdec. now rewrite Hlen, Hget.
      * destruct (send_close_fresh 405
                    (lit "Only GET supported at this time") w eq_refl)
          as (c & Hsend & Hans).
        exists c. split; [|tauto].
        enter_pass request_str Hdec. rewrite Hlen, Hget. cbn [negb].
        now rewrite Hsend.
  - destruct (send_close_fresh 400 (lit "Bad request encoding") w eq_refl)
      as (c & Hsend & Hans).
    exists c. split; [|tauto].
    unfold WifiCommandServer.listen_pass, WifiCommandServer.listen_try,
           try_except.
    change (@WifiCommandServer.send_http_response W)
      with (@WifiProtocolAPI.send_http_response W).
    now rewrite Hdec, Hsend.
Qed.

Lemma answered_settled (c : Conn) (status_code : Z) (body : str) :
  answered c status_code body -> settled c.
Proof. intros (data & _ & ->). split; [reflexivity|cbn; lia]. Qed.

(** X16.  The class server never calls a route handler.  Whatever the
    request and whatever is registered, a pass ends normally with the
    world untouched and the connection closed, after no response or
    one of the three refusals: 400 for bytes that do not decode, 400
    for a malformed request line, 405 for a method other than [GET]. *)
Theorem X16_class_server_calls_no_handler
    (W : Type) (self : WifiCommandServer.WifiCommandServer W)
    (request : bytes) (w : W) :
  exists c,
    WifiCommandServer.listen_pass self request (Build_Env w fresh_conn)
      = (Build_Env w c, Ret tt) /\
    settled c /\
    (unanswered c \/
     answered c 400 (lit "Bad request encoding") \/
     answered c 400 (lit "Malformed request") \/
     answered c 405 (lit "Only GET supported at this time")).
Proof.
  destruct (class_pass_shape W self request w) as (c & Hpass & Hc).
  exists c. split; [exact Hpass|]. split; [|exact Hc].
  destruct Hc as [->|[H|[H|H]]]; try (eapply answered_settled; exact H).
  split; [reflexivity|cbn; lia].
Qed.

(** X17.  [listen_http_wireless] of the class, when called with the
    right number of arguments, serves one connection per request while
    [keepAlive] holds and none after [stop_http_server]; it never
    raises, leaves every connection closed after at most one response,
    and never changes the world of the handlers. *)
Theorem X17_class_loop_is_inert
    (W : Type) (self : WifiCommandServer.WifiCommandServer W)
    (incoming : list bytes) (w : W) :
  (exists conns,
     WifiCommandServer.listen_http_wireless self incoming w
       = (w, Ret conns) /\
     length conns
       = (if WifiCommandServer.keepAlive self then length incoming else 0) /\
     Forall settled conns) /\
  WifiCommandServer.listen_http_wireless
    (WifiCommandServer.stop_http_server self) incoming w = (w, Ret []).
Proof.
  split.
  - induction incoming as [|request later IH].
    + exists []. cbn. split; [reflexivity|]. split; [|constructor].
      now destruct (WifiCommandServer.keepAlive self).
    + cbn [WifiCommandServer.listen_http_wireless].
      destruct (WifiCommandServer.keepAlive self) eqn:Hk.
      * destruct (class_pass_shape W self request w) as (c & Hpass & Hc).
        destruct IH as (conns & Hloop & Hlen & Hs).
        exists (c :: conns). rewrite Hpass. cbn [world conn].
        unfold bind. rewrite Hloop. split; [reflexivity|].
        split; [cbn; now rewrite Hlen|].
        constructor; [|exact Hs].
        destruct Hc as [->|[H|[H|H]]];
          try (eapply answered_settled; exact H).
        split; [reflexivity|cbn; lia].
      * exists []. split; [reflexivity|]. split; [reflexivity|constructor].
  - now destruct incoming.
Qed.

(* ================================================================== *)
(** * Further properties: the old dispatcher and the response           *)
(* ================================================================== *)

Lemma In_movement_paths (p : str) :
  In p movement_paths <->
  str_eqb p (lit "/stop") || str_eqb p (lit "/forward")
  || str_eqb p (lit "/back") || str_eqb p (lit "/left")
  || str_eqb p (lit "/right") = true.
Proof.
  unfold movement_paths. rewrite !orb_true_iff, !str_eqb_eq. cbn [In].
  intuition congruence.
Qed.

(** X18.  [handle_path_old], the hard-coded dispatcher left in
    [WifiProtocolAPI.py], raises [NameError] on the five movement
    paths, having done nothing, because the module has no [stop] and
    no [move_servo]; on every other path it returns, without effect,
    the very text the [handle_path] of [RobotCarWifi.py] returns. *)
Theorem X18_handle_path_old
    (W : Type) (path : str) (w : W) (servos : RobotCarWifi.Servos) :
  let normalised := WifiProtocolAPI.strip_query path in
  (In normalised movement_paths ->
   WifiProtocolAPI.handle_path_old path w
     = (w, Raise WifiProtocolAPI.NameError)) /\
  (~ In normalised movement_paths ->
   exists body,
     WifiProtocolAPI.handle_path_old path w = (w, Ret body) /\
     RobotCarWifi.handle_path path servos = (servos, Ret body)).
Proof.
  intros normalised. rewrite In_movement_paths.
  unfold WifiProtocolAPI.handle_path_old, RobotCarWifi.handle_path.
  change RobotCarWifi.strip_query with WifiProtocolAPI.strip_query.
  fold normalised.
  destruct (str_eqb normalised (lit "/") || str_eqb normalised []) eqn:Hroot.
  { apply orb_true_iff in Hroot.
    assert (Hm : str_eqb normalised (lit "/stop")
                 || str_eqb normalised (lit "/forward")
                 || str_eqb normalised (lit "/back")
                 || str_eqb normalised (lit "/left")
                 || str_eqb normalised (lit "/right") = false).
    { destruct Hroot as [H|H]; apply str_eqb_eq in H; rewrite H; reflexivity. }
    rewrite Hm. split; [discriminate|]. intros _. eexists. now split. }
  destruct (str_eqb normalised (lit "/stop"));
    [split; [reflexivity|intros H; now contradiction H]|].
  destruct (str_eqb normalised (lit "/forward"));
    [split; [reflexivity|intros H; now contradiction H]|].
  destruct (str_eqb normalised (lit "/back"));
    [split; [reflexivity|intros H; now contradiction H]|].
  destruct (str_eqb normalised (lit "/left"));
    [split; [reflexivity|intros H; now contradiction H]|].
  destruct (str_eqb normalised (lit "/right"));
    [split; [reflexivity|intros H; now contradiction H]|].
  split; [discriminate|]. intros _.
  destruct (startswith normalised (lit "/sound/")); eexists; now split.
Qed.

(** [/stop] raises, [/sound/beep] is answered as by the car. *)
Lemma X18_handle_path_old_witness :
  In (WifiProtocolAPI.strip_query (lit "/stop?now")) movement_paths /\
  WifiProtocolAPI.handle_path_old (lit "/stop?now") tt
    = (tt, Raise WifiProtocolAPI.NameError) /\
  ~ In (WifiProtocolAPI.strip_query (lit "/sound/beep")) movement_paths /\
  exists body,
    WifiProtocolAPI.handle_path_old (lit "/sound/beep") tt = (tt, Ret body) /\
    RobotCarWifi.handle_path (lit "/sound/beep") [] = ([], Ret body).
Proof.
  assert (Hin : In (WifiProtocolAPI.strip_query (lit "/stop?now"))
                   movement_paths) by (now left).
  assert (Hout : ~ In (WifiProtocolAPI.strip_query (lit "/sound/beep"))
                      movement_paths).
  { vm_compute. intuition discriminate. }
  split; [exact Hin|]. split.
  - exact (proj1 (X18_handle_path_old unit (lit "/stop?now") tt []) Hin).
  - split; [exact Hout|].
    exact (proj2 (X18_handle_path_old unit (lit "/sound/beep") tt []) Hout).
Defined.

(** ** Content-Length *)

Lemma encode_app (a b : str) :
  encode (a ++ b)
  = match encode a, encode b with
    | Some x, Some y => Some (x ++ y)
    | _, _ => None
    end.
Proof.
  induction a as [|c a IH]; simpl.
  - now destruct (encode b).
  - rewrite IH. destruct (encode_char c), (encode a), (encode b);
      try reflexivity. now rewrite app_assoc.
Qed.

(** A character takes one byte when it is ASCII and more otherwise. *)
Lemma encode_char_length (c : char) (data : bytes) :
  encode_char c = Some data ->
  1 <= length data /\ (length data = 1 <-> is_ascii c = true).
Proof.
  unfold encode_char, is_ascii.
  destruct (c <? 0x80)%N.
  - intros [= <-]. cbn. intuition lia.
  - destruct (c <? 0x800)%N; [intros [= <-]; cbn; intuition (lia || congruence)|].
    destruct (c <? 0x10000)%N.
    + destruct (is_scalar c); [|discriminate].
      intros [= <-]; cbn; intuition (lia || congruence).
    + destruct (c <=? 0x10FFFF)%N; [|discriminate].
      intros [= <-]; cbn; intuition (lia || congruence).
Qed.

Lemma encode_length (s : str) (data : bytes) :
  encode s = Some data ->
  length s <= length data /\
  (length data = length s <-> forallb is_ascii s = true).
Proof.
  revert data. induction s as [|c s IH]; simpl; intros data H.
  - inversion H. cbn. intuition.
  - destruct (encode_char c) as [b|] eqn:Hc; [|discriminate].
    destruct (encode s) as [bs|] eqn:Hs; [|discriminate].
    inversion H; subst data. rewrite length_app.
    destruct (encode_char_length c b Hc) as [H1 H2].
    destruct (IH bs eq_refl) as [H3 H4].
    rewrite andb_true_iff, <- H2, <- H4. lia.
Qed.

Lemma http_response_head (status_code : Z) (body : str) :
  WifiProtocolAPI.http_response status_code body
  = response_head status_code (length body) ++ body.
Proof.
  unfold WifiProtocolAPI.http_response, response_head.
  now repeat rewrite <- app_assoc.
Qed.

(** X19.  For a body that UTF-8 can encode, what [send_http_response]
    sends is the encoded status line and headers followed by the
    encoded body, and the [Content-Length] it announces is the number
    of characters of the body: never more than the number of bytes that
    follow, and equal to it exactly when the body is all ASCII. *)
Theorem X19_content_length_against_body_bytes
    (W : Type) (status_code : Z) (body : str) (e : Env W) :
  encodable body ->
  exists head data,
    encode (response_head status_code (length body)) = Some head /\
    encode body = Some data /\
    WifiProtocolAPI.send_http_response status_code body e
      = (Build_Env (world e) (conn_send (head ++ data) (conn e)), Ret tt) /\
    length body <= length data /\
    (length data = length body <-> forallb is_ascii body = true).
Proof.
  intros Hbody.
  destruct (encode_total _ Hbody) as [data Hdata].
  assert (Hhead : encodable (response_head status_code (length body))).
  { pose proof (http_response_encodable status_code body Hbody) as H.
    rewrite http_response_head in H. now apply encodable_app in H. }
  destruct (encode_total _ Hhead) as [head Hh].
  exists head, data. split; [exact Hh|]. split; [exact Hdata|].
  split; [|now apply encode_length].
  unfold WifiProtocolAPI.send_http_response.
  now rewrite http_response_head, encode_app, Hh, Hdata.
Qed.

(** The body ["é"]: one character, two bytes. *)
Lemma X19_content_length_against_body_bytes_witness :
  encodable [233%N] /\
  exists head data,
    encode (response_head 200 1) = Some head /\
    encode [233%N] = Some data /\
    1 <= length data.
Proof.
  split; [reflexivity|].
  destruct (X19_content_length_against_body_bytes unit 200 [233%N]
              (Build_Env tt fresh_conn) eq_refl)
    as (head & data & Hh & Hd & _ & Hlen & _).
  exists head, data. repeat split; assumption.
Defined.

(* ================================================================== *)
(** * Further properties: the keyboard client                           *)
(* ================================================================== *)

Module Import ClientFacts.
Import WifiCommandClient.

Lemma compute_command_in_commands (keys : key_set) :
  In (compute_command keys) commands.
Proof.
  unfold compute_command, commands.
  destruct (held (lit "w") keys), (held (lit "a") keys),
           (held (lit "s") keys), (held (lit "d") keys); cbn; tauto.
Qed.

Lemma is_movement_In (k : str) : is_movement k = true <-> In k movement_keys.
Proof.
  unfold is_movement, movement_keys. rewrite existsb_exists. split.
  - intros (x & Hx & E). apply str_eqb_eq in E. now subst.
  - intros H. exists k. split; [exact H|apply str_eqb_refl].
Qed.

Lemma url_of_inj (a b : str) : url_of a = url_of b -> a = b.
Proof.
  unfold url_of. intros H. apply app_inv_head in H. now apply app_inv_head in H.
Qed.

Lemma send_command_current (cmd : str) (st : Client) :
  current_cmd (send_command cmd st) = Some cmd.
Proof.
  unfold send_command. destruct (is_current cmd (current_cmd st)) eqn:E.
  - unfold is_current in E. destruct (current_cmd st) as [c|]; [|discriminate].
    apply str_eqb_eq in E. now subst.
  - reflexivity.
Qed.

Lemma send_command_keys (cmd : str) (st : Client) :
  active_keys (send_command cmd st) = active_keys st.
Proof. unfold send_command. now destruct (is_current cmd (current_cmd st)). Qed.

Lemma last_cons_nonempty (a : str) (l : list str) (d : str) :
  l <> [] -> last (a :: l) d = last l d.
Proof. destruct l; [congruence|reflexivity]. Qed.

Lemma send_command_log (cmd : str) (st : Client) :
  In cmd commands -> log_ok st -> log_ok (send_command cmd st).
Proof.
  intros Hcmd ((c & earlier & Hc & Hreq) & Hadj & Hall & Hfirst).
  unfold send_command, is_current. rewrite Hc.
  destruct (str_eqb cmd c) eqn:E.
  - repeat split; try assumption. now exists c, earlier.
  - apply str_eqb_neq in E. unfold log_ok. cbn [current_cmd requested].
    split; [now exists cmd, (requested st)|]. split; [|split].
    + rewrite Hreq in Hadj |- *. split.
      * intros H. apply url_of_inj in H. contradiction.
      * exact Hadj.
    + intros u [<-|Hu]; [now exists cmd|now apply Hall].
    + rewrite last_cons_nonempty; [exact Hfirst|]. now rewrite Hreq.
Qed.

Lemma log_ok_start : log_ok (send_command (lit "stop") loaded).
Proof.
  unfold log_ok. cbn. split; [now exists (lit "stop"), []|].
  split; [exact I|]. split; [|reflexivity].
  intros u [<-|[]]. exists (lit "stop"). split; [|reflexivity].
  unfold commands. cbn. tauto.
Qed.

Lemma stop_in_commands : In (lit "stop") commands.
Proof. unfold commands. cbn. tauto. Qed.

(** The state with other keys held: the log is not concerned. *)
Lemma log_ok_keys (keys : key_set) (st : Client) :
  log_ok st ->
  log_ok {| active_keys := keys; current_cmd := current_cmd st;
            requested := requested st |}.
Proof. intros H. exact H. Qed.

Section Events.
Variable lower : str -> str.

Lemma on_press_ok (key : Key) (st : Client) :
  keys_ok st -> log_ok st -> tracking st ->
  keys_ok (on_press lower key st) /\
  log_ok (on_press lower key st) /\
  tracking (on_press lower key st).
Proof.
  intros Hk Hl Ht.
  assert (Hspace :
    let st' := send_command (lit "stop")
                 {| active_keys := []; current_cmd := current_cmd st;
                    requested := requested st |} in
    keys_ok st' /\ log_ok st' /\ tracking st').
  { cbv zeta. split; [|split].
    - unfold keys_ok. rewrite send_command_keys. cbn.
      split; [constructor|contradiction].
    - apply send_command_log; [apply stop_in_commands|].
      now apply log_ok_keys.
    - unfold tracking. now rewrite send_command_current, send_command_keys. }
  assert (Hchar : forall char,
    let k := lower char in
    let st' :=
      if is_movement k then
        if negb (held k (active_keys st)) then
          send_command (compute_command (k :: active_keys st))
            {| active_keys := k :: active_keys st;
               current_cmd := current_cmd st;
               requested := requested st |}
        else st
      else st in
    keys_ok st' /\ log_ok st' /\ tracking st').
  { intros char. cbv zeta.
    destruct (is_movement (lower char)) eqn:Hm; [|exact (conj Hk (conj Hl Ht))].
    destruct (held (lower char) (active_keys st)) eqn:Hh;
      [exact (conj Hk (conj Hl Ht))|]. cbn [negb].
    split; [|split].
    - unfold keys_ok. rewrite send_command_keys. cbn [active_keys].
      destruct Hk as [Hnd Hin]. split.
      + constructor; [|exact Hnd]. intros H. apply held_In in H. congruence.
      + intros k [<-|H]; [now apply is_movement_In|now apply Hin].
    - apply send_command_log; [apply compute_command_in_commands|].
      now apply log_ok_keys.
    - unfold tracking. now rewrite send_command_current, send_command_keys. }
  destruct key as [| | |[char|]]; try exact (conj Hk (conj Hl Ht)).
  - exact Hspace.
  - exact (Hchar char).
Qed.

Lemma on_release_ok (key : Key) (st : Client) :
  keys_ok st -> log_ok st -> tracking st ->
  let (st', running) := on_release lower key st in
  keys_ok st' /\ log_ok st' /\
  (if running then tracking st'
   else current_cmd st' = Some (lit "stop")).
Proof.
  intros Hk Hl Ht.
  assert (Hchar : forall char,
    let k := lower char in
    let (st', running) :=
      if is_movement k then
        (send_command
           (compute_command
              (active_keys
                 (if held k (active_keys st)
                  then {| active_keys :=
                            filter (fun x => negb (str_eqb k x))
                                   (active_keys st);
                          current_cmd := current_cmd st;
                          requested := requested st |}
                  else st)))
           (if held k (active_keys st)
            then {| active_keys :=
                      filter (fun x => negb (str_eqb k x)) (active_keys st);
                    current_cmd := current_cmd st;
                    requested := requested st |}
            else st), true)
      else (st, true) in
    keys_ok st' /\ log_ok st' /\
    (if running then tracking st' else current_cmd st' = Some (lit "stop"))).
  { intros char. cbv zeta.
    destruct (is_movement (lower char)) eqn:Hm; [|exact (conj Hk (conj Hl Ht))].
    split; [|split].
    - unfold keys_ok. rewrite send_command_keys.
      destruct Hk as [Hnd Hin].
      destruct (held (lower char) (active_keys st)); [|now split].
      cbn [active_keys]. split; [now apply NoDup_filter|].
      intros k H. apply filter_In in H. now apply Hin.
    - apply send_command_log; [apply compute_command_in_commands|].
      destruct (held (lower char) (active_keys st)); [|exact Hl].
      now apply log_ok_keys.
    - unfold tracking. now rewrite send_command_current, send_command_keys. }
  destruct key as [| | |[char|]]; try exact (conj Hk (conj Hl Ht)).
  - cbn [on_release]. split; [|split].
    + unfold keys_ok. now rewrite send_command_keys.
    + apply send_command_log; [apply stop_in_commands|exact Hl].
    + apply send_command_current.
  - exact (Hchar char).
Qed.

Lemma listener_ok (events : list event) (st : Client) :
  keys_ok st -> log_ok st -> tracking st ->
  let (st', running) := listener lower events st in
  keys_ok st' /\ log_ok st' /\
  (if running then tracking st'
   else current_cmd st' = Some (lit "stop")).
Proof.
  revert st. induction events as [|[key|key] later IH]; intros st Hk Hl Ht.
  - exact (conj Hk (conj Hl Ht)).
  - cbn [listener].
    destruct (on_press_ok key st Hk Hl Ht) as (Hk' & Hl' & Ht').
    now apply IH.
  - cbn [listener].
    pose proof (on_release_ok key st Hk Hl Ht) as H.
    destruct (on_release lower key st) as [st' [|]].
    + destruct H as (Hk' & Hl' & Ht'). now apply IH.
    + exact H.
Qed.

Lemma main_ok (events : list event) :
  let (st', running) := main lower events in
  keys_ok st' /\ log_ok st' /\
  (if running then tracking st'
   else current_cmd st' = Some (lit "stop")).
Proof.
  unfold main. apply listener_ok.
  - split; [constructor|contradiction].
  - apply log_ok_start.
  - reflexivity.
Qed.

End Events.
End ClientFacts.

(** X20.  Whatever keys are pressed and released, the client never
    requests the same command twice in a row; every request is for one
    of forward, back, left, right and stop at the robot's base URL; and
    the first request of a session is for stop. *)
Theorem X20_client_requests
    (lower : str -> str) (events : list WifiCommandClient.event) :
  let st := fst (WifiCommandClient.main lower events) in
  adjacent_distinct (WifiCommandClient.requested st) /\
  (forall u, In u (WifiCommandClient.requested st) ->
     exists cmd, In cmd commands /\
       u = WifiCommandClient.ROBOT_BASE_URL ++ lit "/" ++ cmd) /\
  last (WifiCommandClient.requested st) []
    = WifiCommandClient.ROBOT_BASE_URL ++ lit "/" ++ lit "stop".
Proof.
  pose proof (main_ok lower events) as H.
  destruct (WifiCommandClient.main lower events) as [st running].
  destruct H as (_ & (_ & Hadj & Hall & Hfirst) & _).
  cbn [fst]. now repeat split.
Qed.

(** X21.  While the listener runs, the command requested last is the
    one the keys now held ask for; once Escape has stopped it, the
    command requested last is stop. *)
Theorem X21_client_tracks_held_keys
    (lower : str -> str) (events : list WifiCommandClient.event) :
  let (st, running) := WifiCommandClient.main lower events in
  let wanted :=
    if running
    then WifiCommandClient.compute_command (WifiCommandClient.active_keys st)
    else lit "stop" in
  WifiCommandClient.current_cmd st = Some wanted /\
  hd [] (WifiCommandClient.requested st)
    = WifiCommandClient.ROBOT_BASE_URL ++ lit "/" ++ wanted.
Proof.
  pose proof (main_ok lower events) as H.
  destruct (WifiCommandClient.main lower events) as [st running].
  destruct H as (_ & ((cmd & earlier & Hc & Hreq) & _) & Ht).
  cbv zeta.
  assert (Hcur : WifiCommandClient.current_cmd st
                 = Some (if running
                         then WifiCommandClient.compute_command
                                (WifiCommandClient.active_keys st)
                         else lit "stop")).
  { destruct running; exact Ht. }
  split; [exact Hcur|].
  rewrite Hreq. rewrite Hc in Hcur. now inversion Hcur.
Qed.

(** X22.  The set of held keys only ever holds the lower-cased
    characters w, a, s and d, each at most once, whatever keys are
    pressed, released, repeated or released without having been
    pressed. *)
Theorem X22_client_active_keys
    (lower : str -> str) (events : list WifiCommandClient.event) :
  let st := fst (WifiCommandClient.main lower events) in
  NoDup (WifiCommandClient.active_keys st) /\
  forall k, In k (WifiCommandClient.active_keys st) -> In k movement_keys.
Proof.
  pose proof (main_ok lower events) as H.
  destruct (WifiCommandClient.main lower events) as [st running].
  destruct H as (Hk & _). exact Hk.
Qed.

(** A session: W down, A down (two keys: stop), W up (left), W up again,
    shift, space (panic stop), D down with caps lock (right), Escape
    released (stop, and the listener ends); the key pressed after that
    is not seen. *)
Lemma client_session :
  WifiCommandClient.main Sample.lower_ascii
    [ WifiCommandClient.Press (Sample.letter "w");
      WifiCommandClient.Press (Sample.letter "w");
      WifiCommandClient.Press (Sample.letter "a");
      WifiCommandClient.Release (Sample.letter "w");
      WifiCommandClient.Release (Sample.letter "w");
      WifiCommandClient.Press WifiCommandClient.Special;
      WifiCommandClient.Press WifiCommandClient.Space;
      WifiCommandClient.Press (Sample.letter "D");
      WifiCommandClient.Release WifiCommandClient.Esc;
      WifiCommandClient.Press (Sample.letter "s") ]
  = ({| WifiCommandClient.active_keys := [lit "d"];
        WifiCommandClient.current_cmd := Some (lit "stop");
        WifiCommandClient.requested :=
          map (fun cmd => lit "http://192.168.4.1/" ++ lit cmd)
              [ "stop"; "right"; "stop"; "left"; "stop"; "forward";
                "stop" ]%string |},
     false).
Proof. reflexivity. Qed.
